(* ===== verification/_CoqProject ===== *)
-Q . S2P
Prelude.v
Config.v
Serial.v
Platform.v
Uplinks.v
Downlinks.v
Protocol.v
Session.v
Logs.v
Credentials.v
Node.v
Scheduler.v
