(* ===== verification/Prelude.v ===== *)
(** * A verification development of the LoRaWAN node skeleton

    Repository: AdailSilva/LoRaWAN_Node_Skeleton, the five headers under
    src/.  The program is the application layer of an ESP32 energy-meter
    node running the MCCI LMIC LoRaWAN stack.

    ** The program and how its parts interact

    - [_configurations.h]: build macros (ports, radio parameters, the LED
      pin, the activation mode and network provider) and four globals:
      [TX_INTERVAL], [joinstatus], [modeOperation], [seqNoUp].
    - [_credentials.h]: per provider, the ABP session keys and address or
      the OTAA EUIs and key, and the callbacks [os_getArtEui],
      [os_getDevEui], [os_getDevKey] through which LMIC fetches them.
    - [_uplinks.h]: the relay payload "Relay uplink - Ok", [payloadSend]
      and [payloadMyNameVerticalBytes], both ending in
      [LMIC_setTxData2], which queues the next uplink.
    - [_downlinks.h]: [downlinksRule], run on each delivered downlink.  It
      reads the payload LMIC left in [LMIC.frame] at [LMIC.dataBeg]
      ([LMIC.dataLen] bytes, port byte just before).  A one-byte frame
      drives the LED (0, 1) or queues the relay uplink (101); a five-byte
      frame [55 cmd hi lo FF] on port 255 sets [TX_INTERVAL] (cmd 1) or,
      when [seqNoUp > 2], calls [resetModule] (cmd 2), which waits and
      calls [esp_restart()].  The guard stops a reboot loop when the
      network redelivers a confirmed Reboot right after the restart.
      [downlinksControlTime] sets LMIC's receive delay and clock error.
    - [_logs.h]: serial debug output: [printHex2], [showTxRxInformations],
      [showNetworkInformations], [downlinksLog].
    The sketch that owns [setup]/[loop]/[onEvent] is not among the
    sources: it counts uplinks into [seqNoUp], schedules uplinks every
    [TX_INTERVAL] seconds and calls the handler and the logs.

    ** Files (_CoqProject lists them in dependency order)

    - [Prelude] (this file): the monad [M S A := S -> outcome S A] in
      which C routines are written ([Done], [Halted] for a routine that
      resets the chip and never returns, [Fault] for undefined behaviour),
      with stdpp's [MRet]/[MBind] instances and do-notation; machine
      integers as [Z] with explicit wrap-around ([wrap], [u8], [u16],
      [u32], [fits_u], [fits_s]); bytes and ASCII text; hint databases
      [lora] and [lora_rw]; the tactics [bool_to_prop], [case_ztest],
      [mrun].
    - [Config]: the macros as constants ([DEBUG] is defined, so every
      [#ifdef DEBUG] block is compiled), the globals as the record
      [Globals] with [globals_init] and their typing [globals_wf].
    - [Serial] (Module [Serial]): the Arduino core's number formatting
      ([print(n, HEX)] upper case, [String(n, HEX)] lower case, decimal)
      and [println]'s CR LF.
    - [Platform]: the collaborators.  [Lmic] holds the fields of LMIC's
      state the headers touch, [Dev] the whole device (globals, LMIC,
      GPIO levels as a [gmap], and the trace of library calls and serial
      output).  Each library call ([read_frame], [digitalWrite],
      [LMIC_setTxData2], [LMIC_setClockError], [delay],
      [delayMicroseconds], [esp_restart], [serial_println]) is one
      operation of [M Dev]; reading outside LMIC's buffer, or a
      [LMIC_setTxData2] length past the caller's buffer, faults.  [calls]
      and [serial_text] split a trace into the library calls and the
      text printed; [dev_equiv] and [outcome_equiv] (equivalences, with
      their [Equivalence] instances) identify devices and outcomes that
      differ only in what was printed.
    - [Uplinks] (Module [Uplinks]), [Downlinks] (Module [Downlinks]),
      [Logs] (Module [Logs]), [Credentials] (Module [Credentials]): one
      Definition per routine of the header of the same name, statement
      by statement, DEBUG prints included; [Downlinks] also holds
      [downlinksRule_release], the same routine built without [DEBUG],
      [rx_wf], the bookkeeping LMIC guarantees on delivery, and the
      tactic [run_rule], which runs the handler symbolically down to one
      goal per path.
    - [Protocol] (Module [Protocol]): the contract of spec sections 4.1
      to 4.3 ([decode], [mayReboot], [dispatch], [encode]), the
      abstraction [abs]/[observe] of a run, and the refinement theorem.
    - [Node] (Module [Node]): the HEXADECIMAL dump of [downlinksLog]
      read back ([parse_dump]) and compared with the frame the
      contract's decoder classifies.
    - [Session] (Module [Session]): the node across reboots.  The class
      [GuardedHandler] is what the event loop needs from a handler; the
      step relation [sys_step] (uplink cycle, delivered downlink, reset
      with [seqNoUp] re-seeded to a value [r]) and [reachable] are
      modelled from the spec, the invariant is proved against the class
      for every [r <= 2], and the instance [downlinksRule_guarded]
      discharges it for the code.
    - [Scheduler] (Module [Scheduler]): the sketch's loop of spec
      section 5 as the function [node_run] over an explicit sequence of
      events (a timer tick reads [TX_INTERVAL] and completes an uplink
      cycle; a delivered frame runs [downlinksRule]; a reset restarts
      from [globals_init]), and the specification's run [spec_run] of
      [Protocol.dispatch] over the same events; a step lemma
      ([downlinksRule_sim]) and an induction on the events give the
      refinement.

    ** What the theorems show (claim ids of PROJECT.json)

    - Handler contract: C1 refinement of the spec's decode/dispatch; C4
      one frame, at most one effect; C5 SetInterval round trip through
      the wire encoding; C6 the exact DEBUG log of a SetInterval frame;
      C7 five-byte frames on ports other than 255 are ignored (where code
      and spec differ); C8 the reset path, prints and calls in order; C9
      the builds with and without [DEBUG] are equivalent up to serial
      output; C15 receive-window settings; C29 a redelivered frame is
      idempotent unless it is an honoured Reboot.
    - Reboot safety: C2 reset iff Reboot on port 255 with [seqNoUp > 2];
      C3 in every run resets <= completed uplink cycles, for every
      re-seed value up to 2; C10 with a re-seed value of 3 the node can
      reset forever, so the guard threshold must match the re-seed value.
    - Error handling and memory safety: C27 every frame the error
      taxonomy of spec 7 rejects leaves the device as it was and prints a
      diagnostic; C28 the handler reads outside [LMIC.frame] exactly for
      a payload at [dataBeg = 0], whatever its length (the port byte is
      read on every call), so it never does under [rx_wf]; C12 the
      handler keeps the buffer and the globals' types; C13 [dat] fits
      [int] and [uint16_t].
    - Interleaving with the transmit scheduler: C26 for every sequence of
      ticks and frames the intervals waited are those of the spec's run
      (the last SetInterval since the last reset, 15 s after a reset).
    - Log and decoder agree: C11 the HEXADECIMAL dump reads back as the
      frame the decoder classifies.
    - Uplinks and credentials: C14 [payloadMyNameVerticalBytes] queues
      "AdailSilva" whatever its local array held; C25 the LMIC callbacks
      under OTAA and ABP.
    - Logs: C16, C17 the hex dumps parse back; C18 the [snr] conversion
      is undefined for SNR <= -1 dB; C19 [rssi] fits [int16_t]; C20 the
      spreading-factor switch; C21 counters wrap at 0; C22 the [u1_t]
      loops terminate; C23 the DECIMAL dump prints header bytes; C24
      [downlinksLog] is undefined only for a payload at [dataBeg = 0].

    ** Bounds and fuel

    The target is ESP32: [int] and [unsigned int] are 32 bits ([INT_BITS],
    [UINT_BITS]).  [Serial.digits_aux] gets 64 rounds, one per digit, and
    64 base-16 or base-10 digits cover every value the logs print (all
    below 2^32).  [Logs.dump_loop] gets [LOOP_FUEL] = 257 rounds: a loop
    with a [u1_t] counter runs at most 255 bodies plus the final test;
    C22 proves this fuel is never exhausted.  [Session] counts uplinks
    and resets as [nat]; [seqNoUp] wraps as [unsigned int].

    ** Not modelled

    The float formatting of [String(freq)] (a parameter of
    [showTxRxInformations]); LMIC's internals (radio, MAC, join, its
    sequence counters beyond the fields read, and the return value of
    [LMIC_setTxData2], which [payloadSend] discards); PROGMEM placement;
    the sketch apart from what [Session] and [Scheduler] take
    from the spec (the scheduler's conversion of [TX_INTERVAL] to OS
    ticks is LMIC's); the duration of [delay] (recorded as events).  The
    commented-out guard at [_downlinks.h] line 158 is not code; C10
    shows instead what any guard needs: a threshold at or above the
    re-seed value.  The log routines are modelled as the text they print
    with [DEBUG] defined; their release builds print nothing, and the
    only call left there ([LMIC_getSessionKeys]) reads LMIC, so they add
    no behaviour to state.  Without [DEBUG] the [if (i != 0)] of the key
    loops of [showNetworkInformations] would guard [printHex2] instead of
    the dash, but [printHex2] prints nothing then either.  What the map
    of PROJECT.json leaves out of the five headers is their licence
    banners, comments, [#include]s, the [DEBUG_PORT] alias and the
    commented-out alternatives (pin maps, provider keys, payloads): every
    line of code is modelled. *)

From Stdlib Require Import ZArith String List Lia.
From stdpp Require Import base list gmap numbers.

Declare Scope lora_scope.
Delimit Scope lora_scope with lora.
Open Scope Z_scope.

Create HintDb lora discriminated.
Create Rewrite HintDb lora_rw.

(** ** Outcomes of a C routine

    A routine of the node either returns ([Done]), never returns because
    it reset the chip ([Halted], the effect of [esp_restart()]), or would
    execute undefined behaviour ([Fault], e.g. reading outside
    [LMIC.frame]).  The state reached is kept in every case. *)
Inductive outcome (S A : Type) : Type :=
  | Done (a : A) (s : S)
  | Halted (s : S)
  | Fault (msg : string) (s : S).
Arguments Done {S A} a s.
Arguments Halted {S A} s.
Arguments Fault {S A} msg s.

(** A routine over the state [S]: explicit state passing with the two
    ways of not returning normally. *)
Definition M (S A : Type) : Type := S -> outcome S A.

#[export] Instance M_ret S : MRet (M S) := fun A a s => Done a s.
#[export] Instance M_bind S : MBind (M S) := fun A B f m s =>
  match m s with
  | Done a s' => f a s'
  | Halted s' => Halted s'
  | Fault e s' => Fault e s'
  end.

Section MonadOps.
Context {S : Type}.

Definition get : M S S := fun s => Done s s.
Definition gets {A} (f : S -> A) : M S A := fun s => Done (f s) s.
Definition put (s : S) : M S unit := fun _ => Done tt s.
Definition modify (f : S -> S) : M S unit := fun s => Done tt (f s).
Definition halt {A} : M S A := fun s => Halted s.
Definition fault {A} (msg : string) : M S A := fun s => Fault msg s.

(** [if (b) { m }] with no [else]. *)
Definition when (b : bool) (m : M S unit) : M S unit :=
  if b then m else mret tt.

(** The final state, whatever the outcome. *)
Definition final_state {A} (o : outcome S A) : S :=
  match o with Done _ s | Halted s | Fault _ s => s end.

End MonadOps.


(** ** Machine integers

    C integers are kept as [Z] with the wrap-around of the conversion
    written out: converting [z] to an unsigned [w]-bit type yields
    [z mod 2^w] (C11 6.3.1.3p2). *)
Definition wrap (w z : Z) : Z := z mod 2 ^ w.
Definition u8 (z : Z) : Z := wrap 8 z.
Definition u16 (z : Z) : Z := wrap 16 z.
Definition u32 (z : Z) : Z := wrap 32 z.

(** [z] is a value of the unsigned [w]-bit type. *)
Definition fits_u (w z : Z) : bool := (0 <=? z) && (z <? 2 ^ w).
(** [z] is a value of the signed [w]-bit type. *)
Definition fits_s (w z : Z) : bool := (- 2 ^ (w - 1) <=? z) && (z <? 2 ^ (w - 1)).

(** A list of [uint8_t] values. *)
Definition bytes_ok (l : list Z) : bool := forallb (fits_u 8) l.

(** ** Bytes and text *)

(** The ASCII text a byte sequence spells. *)
Fixpoint string_of_bytes (l : list Z) : string :=
  match l with
  | [] => EmptyString
  | b :: l' => String (Ascii.ascii_of_nat (Z.to_nat b)) (string_of_bytes l')
  end.

(** The bytes of an ASCII text. *)
Fixpoint bytes_of_string (s : string) : list Z :=
  match s with
  | EmptyString => []
  | String c s' => Z.of_nat (Ascii.nat_of_ascii c) :: bytes_of_string s'
  end.

(** ** Lemmas *)

Section MonadLemmas.
Context {S : Type}.

Lemma bind_ret_l {A B} (a : A) (f : A -> M S B) s :
  (mret a ≫= f) s = f a s.
Proof. reflexivity. Qed.

Lemma bind_Done {A B} (m : M S A) (f : A -> M S B) s a s' :
  m s = Done a s' -> (m ≫= f) s = f a s'.
Proof. intros H. cbv [mbind M_bind]. by rewrite H. Qed.

Lemma bind_Halted {A B} (m : M S A) (f : A -> M S B) s s' :
  m s = Halted s' -> (m ≫= f) s = Halted s'.
Proof. intros H. cbv [mbind M_bind]. by rewrite H. Qed.

Lemma bind_Fault {A B} (m : M S A) (f : A -> M S B) s e s' :
  m s = Fault e s' -> (m ≫= f) s = Fault e s'.
Proof. intros H. cbv [mbind M_bind]. by rewrite H. Qed.

Lemma bind_assoc {A B C} (m : M S A) (f : A -> M S B) (g : B -> M S C) s :
  ((m ≫= f) ≫= g) s = (m ≫= (fun a => f a ≫= g)) s.
Proof. cbv [mbind M_bind]. by destruct (m s). Qed.

Lemma when_false (m : M S unit) s : when false m s = Done tt s.
Proof. reflexivity. Qed.

Lemma when_true (m : M S unit) s : when true m s = m s.
Proof. reflexivity. Qed.


End MonadLemmas.

#[export] Hint Rewrite @bind_ret_l @when_false @when_true : lora_rw.

Lemma fits_u_iff w z : fits_u w z = true <-> 0 <= z < 2 ^ w.
Proof. unfold fits_u. rewrite andb_true_iff, Z.leb_le, Z.ltb_lt. tauto. Qed.

Lemma fits_s_iff w z : fits_s w z = true <-> - 2 ^ (w - 1) <= z < 2 ^ (w - 1).
Proof. unfold fits_s. rewrite andb_true_iff, Z.leb_le, Z.ltb_lt. tauto. Qed.

Lemma wrap_small w z : 0 <= z < 2 ^ w -> wrap w z = z.
Proof. apply Z.mod_small. Qed.

Lemma wrap_range w z : 0 <= w -> 0 <= wrap w z < 2 ^ w.
Proof. intros Hw. apply Z.mod_pos_bound. apply Z.pow_pos_nonneg; lia. Qed.

Lemma wrap_fits w z : 0 <= w -> fits_u w (wrap w z) = true.
Proof. intros Hw. apply fits_u_iff, wrap_range, Hw. Qed.

Lemma bytes_ok_Forall l : bytes_ok l = true <-> Forall (fun b => 0 <= b < 256) l.
Proof.
  unfold bytes_ok. rewrite forallb_forall, Forall_forall.
  split; intros H x Hx.
  - exact (proj1 (fits_u_iff 8 x) (H x Hx)).
  - apply fits_u_iff. exact (H x Hx).
Qed.

Lemma bytes_ok_lookup l i b :
  bytes_ok l = true -> l !! i = Some b -> 0 <= b < 256.
Proof.
  intros Hok Hl. apply bytes_ok_Forall in Hok.
  rewrite Forall_lookup in Hok. exact (Hok i b Hl).
Qed.

#[export] Hint Resolve wrap_range wrap_fits bytes_ok_lookup : lora.

(** ** Tactics *)

(** Turn the boolean tests of the code into propositions. *)
Ltac bool_to_prop :=
  repeat match goal with
  | H : (_ && _)%bool = true |- _ => apply andb_true_iff in H as [? ?]
  | H : (_ =? _) = true |- _ => apply Z.eqb_eq in H
  | H : (_ =? _) = false |- _ => apply Z.eqb_neq in H
  | H : (_ <? _) = true |- _ => apply Z.ltb_lt in H
  | H : (_ <? _) = false |- _ => apply Z.ltb_ge in H
  | H : (_ <=? _) = true |- _ => apply Z.leb_le in H
  | H : (_ <=? _) = false |- _ => apply Z.leb_gt in H
  end.

(** Case on the first Z test of the goal, keeping its equation. *)
Ltac case_ztest :=
  match goal with
  | |- context [?a =? ?b] => destruct (Z.eqb_spec a b)
  | |- context [?a <? ?b] => destruct (Z.ltb_spec a b)
  | |- context [?a <=? ?b] => destruct (Z.leb_spec a b)
  end.

(** Run a routine of the model symbolically: unfold the monad plumbing
    and reduce. *)
Ltac mrun :=
  cbv [mbind M_bind mret M_ret get gets put modify halt fault when] in *;
  simpl in *.

Lemma string_append_assoc (a b c : string) :
  String.append a (String.append b c) = String.append (String.append a b) c.
Proof.
  induction a as [|x a IH]; [reflexivity|].
  change (String x (String.append a (String.append b c))
          = String x (String.append (String.append a b) c)). by rewrite IH.
Qed.

Lemma string_append_empty_r (a : string) : String.append a EmptyString = a.
Proof.
  induction a as [|x a IH]; [reflexivity|].
  change (String x (String.append a EmptyString) = String x a). by rewrite IH.
Qed.

Lemma string_of_bytes_of_string s : string_of_bytes (bytes_of_string s) = s.
Proof.
  induction s as [|c s IH]; [done|]. simpl.
  rewrite Nat2Z.id, Ascii.ascii_nat_embedding. by rewrite IH.
Qed.
