(* ===== verification/Config.v ===== *)
(** * Build configuration and global variables ([src/_configurations.h])

    The macros of the header become constants; the four global
    variables ([TX_INTERVAL], [joinstatus], [modeOperation], [seqNoUp])
    become the record [Globals], and [globals_init] their initialisers.
    The integer types of the ESP32 target are recorded with their widths:
    [unsigned int] is 32 bits, [u1_t] 8 bits, [uint16_t] 16 bits. *)

From Stdlib Require Import ZArith String.
From stdpp Require Import base.
From S2P Require Import Prelude.
Open Scope Z_scope.

(** ** Macros *)

(** Serial debug: [DEBUG_PORT] is [Serial] at [SERIAL_BAUD_RATE] baud,
    and [DEBUG] is defined, so every [#ifdef DEBUG] block of the headers
    is compiled: the routines of the model print. *)
Definition SERIAL_BAUD_RATE : Z := 9600.
Definition DEBUG : bool := true.

(** Arduino pin levels. *)
Definition LOW : Z := 0.
Definition HIGH : Z := 1.

(** Transmission parameters. *)
Definition UPLINK_PORT : Z := 101.
Definition UPLINK_CONFIRMED : Z := 0.
Definition ADR_MODE : Z := 0.
Definition LINK_CHECK_MODE : Z := 0.
(** LMIC's AU915 data rates [DR_SF12 = 0] to [DR_SF7 = 5]: the uplink
    data rate and the RX2 data rate the sketch configures. *)
Definition DR_SF7 : Z := 5.
Definition DR_SF9 : Z := 3.
Definition UPLINK_DATA_RATE : Z := DR_SF7.
Definition TRANSMIT_POWER : Z := 14.
Definition DN2DR : Z := DR_SF9.
Definition RX_DELAY : Z := 1.
Definition CLOCK_ERROR : Z := 1.

(** Other definitions: the pin of the LED. *)
Definition LED : Z := 25.

(** The LoRa SPI pin map of the ESP32 Dev Module with an RFM95w. *)
Record PinMap := {
  SCK_GPIO : Z; MISO_GPIO : Z; MOSI_GPIO : Z; NSS_GPIO : Z;
  RESET_GPIO : Z; DIO0_GPIO : Z; DIO1_GPIO : Z; DIO2_GPIO : Z }.

Definition pin_map : PinMap := {|
  SCK_GPIO := 18; MISO_GPIO := 19; MOSI_GPIO := 23; NSS_GPIO := 5;
  RESET_GPIO := 14; DIO0_GPIO := 34; DIO1_GPIO := 35; DIO2_GPIO := 39 |}.

(** Widths of the C types of the target (ESP32, ILP32). *)
Definition UINT_BITS : Z := 32.
Definition INT_BITS : Z := 32.

(** ** Global variables *)

Record Globals := {
  TX_INTERVAL : Z;     (** [int unsigned TX_INTERVAL], seconds *)
  joinstatus : Z;      (** [u1_t joinstatus], 0 = not joined, 1 = joined *)
  modeOperation : string;  (** [String modeOperation], "TX" or "RX" for the logs *)
  seqNoUp : Z          (** [int unsigned seqNoUp], uplink counter *)
}.

Definition globals_init : Globals := {|
  TX_INTERVAL := 15;
  joinstatus := 0;
  modeOperation := "";
  seqNoUp := 0 |}.

(** Assignments to the globals. *)
Definition set_TX_INTERVAL (v : Z) (g : Globals) : Globals :=
  {| TX_INTERVAL := v; joinstatus := joinstatus g;
     modeOperation := modeOperation g; seqNoUp := seqNoUp g |}.

Definition set_seqNoUp (v : Z) (g : Globals) : Globals :=
  {| TX_INTERVAL := TX_INTERVAL g; joinstatus := joinstatus g;
     modeOperation := modeOperation g; seqNoUp := v |}.

(** Every global holds a value of its C type. *)
Definition globals_wf (g : Globals) : bool :=
  fits_u UINT_BITS (TX_INTERVAL g) && fits_u 8 (joinstatus g)
  && fits_u UINT_BITS (seqNoUp g).

Lemma globals_init_wf : globals_wf globals_init = true.
Proof. reflexivity. Qed.
