(* ===== verification/Serial.v ===== *)
(** * Serial output: the Arduino core's number formatting

    The logs write text to [DEBUG_PORT] ([Serial]).  What reaches the
    port is determined by the Arduino core, not by this repository:
    - [Print::print(n, HEX)] ([printNumber]) writes the base-16 digits of
      an [unsigned long] with no leading zeros, letters upper case;
    - [String(n, HEX)] ([utoa]) writes the same digits in lower case;
    - [Print::print(n)] and [String(n)] write decimal digits, with a
      leading '-' for a negative signed value;
    - [println] ends the line with "\r\n".
    They are modelled here once; the files that model the logs use
    them.  Text is a Stdlib [string]. *)

From Stdlib Require Import ZArith String Ascii List Lia.
From stdpp Require Import base list numbers.
From S2P Require Import Prelude.
Open Scope Z_scope.

Module Serial.

(** A digit [0 <= d < 16] as an upper-case or lower-case hex character. *)
Definition hex_char_upper (d : Z) : ascii :=
  ascii_of_nat (Z.to_nat (if d <? 10 then 48 + d else 55 + d)).
Definition hex_char_lower (d : Z) : ascii :=
  ascii_of_nat (Z.to_nat (if d <? 10 then 48 + d else 87 + d)).
Definition dec_char (d : Z) : ascii := ascii_of_nat (Z.to_nat (48 + d)).

(** The digits of [n >= 0] in base [b], most significant first, prefixed
    to [acc]; [fuel] bounds the number of digits. *)
Fixpoint digits_aux (digit : Z -> ascii) (b : Z) (fuel : nat) (n : Z) (acc : string) : string :=
  match fuel with
  | O => acc
  | S f =>
      let acc' := String (digit (n mod b)) acc in
      if n <? b then acc' else digits_aux digit b f (n / b) acc'
  end.

(** 64 digits are enough for every value below [2^64]. *)
Definition print_hex (n : Z) : string := digits_aux hex_char_upper 16 64 n EmptyString.
Definition string_hex (n : Z) : string := digits_aux hex_char_lower 16 64 n EmptyString.
Definition print_dec (n : Z) : string := digits_aux dec_char 10 64 n EmptyString.

(** [String(n)] of a signed value. *)
Definition string_dec (n : Z) : string :=
  if n <? 0 then String "-" (print_dec (- n)) else print_dec n.

Definition CRLF : string := String (ascii_of_nat 13) (String (ascii_of_nat 10) EmptyString).

(** [println(s)]. *)
Definition println (s : string) : string := append s CRLF.

(** Parsing one upper-case hex character back. *)
Definition hex_value (c : ascii) : option Z :=
  let n := Z.of_nat (nat_of_ascii c) in
  if (48 <=? n) && (n <=? 57) then Some (n - 48)
  else if (65 <=? n) && (n <=? 70) then Some (n - 55)
  else None.

#[global] Arguments hex_char_upper : simpl never.
#[global] Arguments hex_char_lower : simpl never.
#[global] Arguments dec_char : simpl never.
#[global] Arguments print_hex : simpl never.
#[global] Arguments string_hex : simpl never.
#[global] Arguments print_dec : simpl never.

(** ** Lemmas *)

(** One step of the digit loop. *)
Lemma digits_aux_S digit b f n acc :
  digits_aux digit b (S f) n acc =
  if n <? b then String (digit (n mod b)) acc
  else digits_aux digit b f (n / b) (String (digit (n mod b)) acc).
Proof. reflexivity. Qed.

Lemma hex_value_upper d : 0 <= d < 16 -> hex_value (hex_char_upper d) = Some d.
Proof.
  intros Hd. unfold hex_value, hex_char_upper.
  destruct (Z.ltb_spec d 10);
  rewrite nat_ascii_embedding by lia; rewrite Z2Nat.id by lia;
  repeat case_ztest; simpl; try (f_equal; lia); lia.
Qed.

(** A value below 16 prints as one digit, a value in [16, 256) as two. *)
Lemma print_hex_one d : 0 <= d < 16 -> print_hex d = String (hex_char_upper d) EmptyString.
Proof.
  intros Hd. unfold print_hex. rewrite digits_aux_S, Z.mod_small by lia.
  destruct (Z.ltb_spec d 16); [done | lia].
Qed.

Lemma print_hex_two v :
  16 <= v < 256 ->
  print_hex v = String (hex_char_upper (v / 16)) (String (hex_char_upper (v mod 16)) EmptyString).
Proof.
  intros Hv. unfold print_hex. do 2 rewrite digits_aux_S.
  destruct (Z.ltb_spec v 16); [lia|].
  assert (v / 16 < 16) by (apply Z.div_lt_upper_bound; lia).
  rewrite (Z.mod_small (v / 16)) by (split; [apply Z.div_pos|]; lia).
  destruct (Z.ltb_spec (v / 16) 16); [done | lia].
Qed.

End Serial.
