(* ===== verification/Platform.v ===== *)
(** * The platform the application runs on: LMIC and the Arduino core

    These are the collaborators of the application, not code of the
    repository: the fields of the LMIC state the headers read, and the
    library calls they make ([LMIC_setTxData2], [LMIC_setClockError],
    [digitalWrite], [delay], [delayMicroseconds], [esp_restart]).  Each
    call is one operation of the monad [M Dev] that updates the state the
    way the library does and appends an [Event] to the trace, so the
    order of the calls a routine makes is observable.  Text written to
    [DEBUG_PORT] ([Serial], [DEBUG] is defined) is an event of the same
    trace, so what a routine prints is ordered with what it does. *)

From Stdlib Require Import ZArith String List.
From stdpp Require Import base list gmap numbers.
From S2P Require Import Prelude Config Serial.
Open Scope Z_scope.

(** An uplink queued with [LMIC_setTxData2(port, data, dlen, confirmed)]. *)
Record TxReq := { tx_port : Z; tx_data : list Z; tx_confirmed : Z }.

(** The library calls the application makes, in the order it makes them. *)
Inductive Event :=
  | EvDigitalWrite (pin level : Z)
  | EvSetTxData2 (req : TxReq)
  | EvSetClockError (err : Z)
  | EvDelay (ms : Z)
  | EvDelayMicroseconds (us : Z)
  | EvRestart
  | EvSerial (text : string).

(** The fields of the global [LMIC] structure that the headers read or
    write.  [frame] is the whole receive buffer; the payload of the last
    downlink is [frame[dataBeg .. dataBeg + dataLen - 1]] and its port
    is [frame[dataBeg - 1]]. *)
Record Lmic := {
  frame : list Z;
  dataBeg : Z;
  dataLen : Z;
  seqnoUp : Z;
  seqnoDn : Z;
  txrxFlags : Z;
  rssi : Z;
  snr : Z;
  datarate : Z;
  rxDelay : Z;
  clockError : Z;
  pendTx : option TxReq;
  freq : Z;       (** Hz *)
  netid : Z;
  devaddr : Z;
  txChnl : Z;
  txpow : Z;
  rps : Z
}.

(** The whole device: the application's globals, LMIC, the output
    levels of the GPIO pins, and the trace of library calls. *)
Record Dev := {
  globals : Globals;
  lmic : Lmic;
  pins : gmap Z Z;
  trace : list Event
}.

(** ** State updates *)

Definition set_globals (g : Globals) (d : Dev) : Dev :=
  {| globals := g; lmic := lmic d; pins := pins d; trace := trace d |}.

Definition set_lmic (l : Lmic) (d : Dev) : Dev :=
  {| globals := globals d; lmic := l; pins := pins d; trace := trace d |}.

Definition set_pins (p : gmap Z Z) (d : Dev) : Dev :=
  {| globals := globals d; lmic := lmic d; pins := p; trace := trace d |}.

Definition log_event (e : Event) (d : Dev) : Dev :=
  {| globals := globals d; lmic := lmic d; pins := pins d; trace := trace d ++ [e] |}.

Definition lmic_set_pendTx (r : TxReq) (l : Lmic) : Lmic :=
  {| frame := frame l; dataBeg := dataBeg l; dataLen := dataLen l;
     seqnoUp := seqnoUp l; seqnoDn := seqnoDn l; txrxFlags := txrxFlags l;
     rssi := rssi l; snr := snr l; datarate := datarate l;
     rxDelay := rxDelay l; clockError := clockError l; pendTx := Some r;
     freq := freq l; netid := netid l; devaddr := devaddr l; txChnl := txChnl l;
     txpow := txpow l; rps := rps l |}.

Definition lmic_set_rxDelay (v : Z) (l : Lmic) : Lmic :=
  {| frame := frame l; dataBeg := dataBeg l; dataLen := dataLen l;
     seqnoUp := seqnoUp l; seqnoDn := seqnoDn l; txrxFlags := txrxFlags l;
     rssi := rssi l; snr := snr l; datarate := datarate l;
     rxDelay := v; clockError := clockError l; pendTx := pendTx l;
     freq := freq l; netid := netid l; devaddr := devaddr l; txChnl := txChnl l;
     txpow := txpow l; rps := rps l |}.

Definition lmic_set_clockError (v : Z) (l : Lmic) : Lmic :=
  {| frame := frame l; dataBeg := dataBeg l; dataLen := dataLen l;
     seqnoUp := seqnoUp l; seqnoDn := seqnoDn l; txrxFlags := txrxFlags l;
     rssi := rssi l; snr := snr l; datarate := datarate l;
     rxDelay := rxDelay l; clockError := v; pendTx := pendTx l;
     freq := freq l; netid := netid l; devaddr := devaddr l; txChnl := txChnl l;
     txpow := txpow l; rps := rps l |}.

(** ** Library calls *)

(** [LMIC.frame[i]]: a read of the fixed receive buffer.  An index
    outside the buffer is undefined behaviour in C. *)
Definition read_frame (i : Z) : M Dev Z :=
  d ← get;
  match (if decide (0 <= i) then frame (lmic d) !! Z.to_nat i else None) with
  | Some b => mret b
  | None => fault "LMIC.frame read out of bounds"
  end.

(** The value of [LMIC.frame[i]] when the read is defined. *)
Definition frame_at (l : Lmic) (i : Z) : option Z :=
  if decide (0 <= i) then frame l !! Z.to_nat i else None.

(** [digitalWrite(pin, level)]. *)
Definition digitalWrite (pin level : Z) : M Dev unit :=
  modify (fun d => log_event (EvDigitalWrite pin level) (set_pins (<[pin := level]> (pins d)) d)).

(** [LMIC_setTxData2(port, data, dlen, confirmed)]: queue the first
    [dlen] bytes of [data] for the next uplink.  The library copies
    [dlen] bytes from the caller's buffer, so a [dlen] larger than the
    buffer [data] reads past it: undefined behaviour. *)
Definition LMIC_setTxData2 (port : Z) (data : list Z) (dlen confirmed : Z) : M Dev unit :=
  if (Z.to_nat dlen <=? length data)%nat then
    let r := {| tx_port := port; tx_data := take (Z.to_nat dlen) data;
                tx_confirmed := confirmed |} in
    modify (fun d => log_event (EvSetTxData2 r) (set_lmic (lmic_set_pendTx r (lmic d)) d))
  else fault "LMIC_setTxData2: dlen bytes read past the data buffer".

(** [LMIC_setClockError(err)]. *)
Definition LMIC_setClockError (err : Z) : M Dev unit :=
  modify (fun d => log_event (EvSetClockError err) (set_lmic (lmic_set_clockError err (lmic d)) d)).

(** [LMIC.rxDelay = v]. *)
Definition set_rxDelay (v : Z) : M Dev unit :=
  modify (fun d => set_lmic (lmic_set_rxDelay v (lmic d)) d).

(** [delay(ms)] and [delayMicroseconds(us)]. *)
Definition delay (ms : Z) : M Dev unit := modify (log_event (EvDelay ms)).
Definition delayMicroseconds (us : Z) : M Dev unit := modify (log_event (EvDelayMicroseconds us)).

(** [DEBUG_PORT.println(s)]: the text and CR LF reach the serial port. *)
Definition serial_println (s : string) : M Dev unit :=
  modify (log_event (EvSerial (Serial.println s))).

(** [esp_restart()] does not return. *)
Definition esp_restart : M Dev unit := d ← get; put (log_event EvRestart d);; halt.

(** [MAX_CLOCK_ERROR] of LMIC's [lmic.h]. *)
Definition MAX_CLOCK_ERROR : Z := 65536.

(** The bits of [LMIC.txrxFlags] ([lmic.h]). *)
Definition TXRX_ACK : Z := 0x80.
Definition TXRX_NACK : Z := 0x40.
Definition TXRX_NOPORT : Z := 0x20.
Definition TXRX_PORT : Z := 0x10.
Definition TXRX_LENERR : Z := 0x08.
Definition TXRX_PING : Z := 0x04.
Definition TXRX_DNW2 : Z := 0x02.
Definition TXRX_DNW1 : Z := 0x01.

Definition is_serial (e : Event) : bool :=
  match e with EvSerial _ => true | _ => false end.

(** The library calls of a trace, the serial output left out. *)
Definition calls (evs : list Event) : list Event := List.filter (fun e => negb (is_serial e)) evs.

(** The text written to the serial port, in order. *)
Definition serial_text (evs : list Event) : string :=
  fold_right (fun e acc => match e with EvSerial s => String.append s acc | _ => acc end)
    EmptyString evs.

(** Two devices that differ at most in what was printed: same globals,
    LMIC state, pins and library calls. *)
Definition dev_equiv (d1 d2 : Dev) : Prop :=
  globals d1 = globals d2 /\ lmic d1 = lmic d2 /\ pins d1 = pins d2
  /\ calls (trace d1) = calls (trace d2).

(** Two outcomes of a routine that differ at most in what was printed. *)
Definition outcome_equiv {A} (o1 o2 : outcome Dev A) : Prop :=
  match o1, o2 with
  | Done a d1, Done b d2 => a = b /\ dev_equiv d1 d2
  | Halted d1, Halted d2 => dev_equiv d1 d2
  | Fault e1 d1, Fault e2 d2 => e1 = e2 /\ dev_equiv d1 d2
  | _, _ => False
  end.

(** ** Generic facts about the library calls *)

Lemma read_frame_in d i b :
  0 <= i -> frame (lmic d) !! Z.to_nat i = Some b -> read_frame i d = Done b d.
Proof. intros Hi Hb. unfold read_frame. mrun. rewrite decide_True by lia. by rewrite Hb. Qed.

Lemma read_frame_out d i :
  i < 0 \/ (length (frame (lmic d)) <= Z.to_nat i)%nat ->
  exists e, read_frame i d = Fault e d.
Proof.
  intros Hi. unfold read_frame. mrun. case_decide as Hi'.
  - rewrite lookup_ge_None_2 by lia. eauto.
  - eauto.
Qed.

Lemma log_event_globals e d : globals (log_event e d) = globals d.
Proof. reflexivity. Qed.
Lemma log_event_pins e d : pins (log_event e d) = pins d.
Proof. reflexivity. Qed.
Lemma log_event_lmic e d : lmic (log_event e d) = lmic d.
Proof. reflexivity. Qed.
Lemma log_event_trace e d : trace (log_event e d) = trace d ++ [e].
Proof. reflexivity. Qed.

Lemma calls_app a b : calls (a ++ b) = calls a ++ calls b.
Proof. apply List.filter_app. Qed.

Lemma serial_text_app a b : serial_text (a ++ b) = String.append (serial_text a) (serial_text b).
Proof.
  induction a as [|[] a IH]; simpl; rewrite ?IH; try reflexivity.
  apply string_append_assoc.
Qed.

#[export] Instance dev_equiv_equivalence : Equivalence dev_equiv.
Proof.
  unfold dev_equiv. split; [intros d; auto | intros d1 d2 ? | intros d1 d2 d3 ? ?];
    intuition congruence.
Qed.

#[export] Instance outcome_equiv_equivalence {A} : Equivalence (@outcome_equiv A).
Proof.
  split.
  - intros []; simpl; split_and?; reflexivity.
  - intros [] []; simpl; try tauto; intros; destruct_and?; split_and?; by symmetry.
  - intros [] [] []; simpl; try tauto; intros; destruct_and?; split_and?;
      first [congruence | by etransitivity].
Qed.

#[export] Hint Rewrite log_event_globals log_event_pins log_event_lmic log_event_trace
  calls_app serial_text_app : lora_rw.
