(* ===== verification/Uplinks.v ===== *)
(** * Uplinks ([src/_uplinks.h])

    The constant relay payload, [payloadSend] and
    [payloadMyNameVerticalBytes].  Both routines end in a call to
    [LMIC_setTxData2], which queues the next uplink.  The C parameters
    of [payloadSend] are [uint8_t port], [uint8_t data_size] and
    [bool confirmed]: the conversions the call performs are written out
    ([u8], and [x != 0] for [bool]). *)

From Stdlib Require Import ZArith String List.
From stdpp Require Import base list gmap numbers.
From S2P Require Import Prelude Config Platform.
Open Scope Z_scope.

Module Uplinks.

(** [byte payloadRelayUplink[17]], the text "Relay uplink - Ok". *)
Definition payloadRelayUplink : list Z :=
  [82; 101; 108; 97; 121; 32; 117; 112; 108; 105; 110; 107; 32; 45; 32; 79; 107].

(** [payloadSend(port, data, data_size, confirmed)]. *)
Definition payloadSend (port : Z) (data : list Z) (data_size : Z) (confirmed : Z) : M Dev unit :=
  let port8 := u8 port in
  let size8 := u8 data_size in
  let conf := negb (confirmed =? 0) in
  LMIC_setTxData2 port8 data size8 (if conf then 1 else 0).

(** The ten assignments [payload[i] = v] of [payloadMyNameVerticalBytes]. *)
Definition myName_assignments : list (nat * Z) :=
  [(0%nat, 65); (1%nat, 100); (2%nat, 97); (3%nat, 105); (4%nat, 108);
   (5%nat, 83); (6%nat, 105); (7%nat, 108); (8%nat, 118); (9%nat, 97)].

(** Run assignments [buf[i] = v] in order on a buffer. *)
Definition assign_all (asg : list (nat * Z)) (buf : list Z) : list Z :=
  fold_left (fun b iv => <[iv.1 := iv.2]> b) asg buf.

(** [sizeof(payload)] of [byte payload[10]]. *)
Definition sizeof_payload : Z := 10.

(** [payloadMyNameVerticalBytes()]: [buf] is the indeterminate content of
    the local array [byte payload[10]] before the assignments. *)
Definition payloadMyNameVerticalBytes (buf : list Z) : M Dev unit :=
  let payload := assign_all myName_assignments buf in
  LMIC_setTxData2 (u8 UPLINK_PORT) payload (u8 sizeof_payload) (u8 UPLINK_CONFIRMED).

(** A device with nothing received yet, for the examples. *)
Definition idle_dev : Dev := {|
  globals := globals_init;
  lmic := {| frame := []; dataBeg := 0; dataLen := 0; seqnoUp := 0; seqnoDn := 0;
             txrxFlags := 0; rssi := 0; snr := 0; datarate := 0; rxDelay := 1;
             clockError := 0; pendTx := None;
             freq := 0; netid := 0; devaddr := 0; txChnl := 0; txpow := 0; rps := 0 |};
  pins := ∅; trace := [] |}.

(** ** Theorems *)

(** C14: [payloadMyNameVerticalBytes] assigns every element of its local
    array before sending it, so whatever the array held, it queues the
    ten bytes of "AdailSilva" on [UPLINK_PORT], unconfirmed. *)
Theorem payloadMyNameVerticalBytes_queues buf d :
  length buf = 10%nat ->
  exists d', payloadMyNameVerticalBytes buf d = Done tt d'
  /\ pendTx (lmic d') = Some {| tx_port := UPLINK_PORT;
                                tx_data := bytes_of_string "AdailSilva";
                                tx_confirmed := 0 |}
  /\ globals d' = globals d /\ pins d' = pins d.
Proof.
  intros Hlen.
  do 10 (destruct buf as [|? buf]; [discriminate|]).
  destruct buf; [|discriminate].
  unfold payloadMyNameVerticalBytes, LMIC_setTxData2. simpl.
  eexists. split; [reflexivity|]. repeat split.
Qed.

Lemma payloadMyNameVerticalBytes_queues_witness :
  exists d', payloadMyNameVerticalBytes (replicate 10 0) idle_dev = Done tt d'
  /\ pendTx (lmic d') = Some {| tx_port := UPLINK_PORT;
                                tx_data := bytes_of_string "AdailSilva";
                                tx_confirmed := 0 |}
  /\ globals d' = globals idle_dev /\ pins d' = pins idle_dev.
Proof. apply payloadMyNameVerticalBytes_queues. reflexivity. Defined.

End Uplinks.
