(* ===== verification/Downlinks.v ===== *)
(** * Downlinks ([src/_downlinks.h])

    [resetModule], [downlinksControlTime] and [downlinksRule], the
    handler LMIC's event callback runs on each received downlink.
    [downlinksRule] is written statement by statement: the two top-level
    [if]s are sequential (a one-byte frame also reaches the second
    test), the tests use the non-short-circuit [&] of the source, so
    [LMIC.frame[LMIC.dataBeg - 1]] is read on every call, and the
    fields of [LMIC] are re-read where the source re-reads them.  Every
    [DEBUG_PORT.println] of the [#ifdef DEBUG] blocks is a step of the
    routine ([DEBUG] is defined); [downlinksRule_release] is the same
    routine built without [DEBUG].

    The theorems show that the handler never reads outside the receive
    buffer when LMIC's bookkeeping is well formed ([rx_wf]) and reads
    outside it exactly when the payload starts at index 0, that it
    keeps the globals well typed, what each kind of frame does, that a
    redelivered frame has no further effect unless it is an honoured
    Reboot, that it resets the chip exactly when a framed reboot command
    arrives on port 255 while [seqNoUp > 2], and that [DEBUG] only adds
    serial output. *)

From Stdlib Require Import ZArith String List Lia.
From stdpp Require Import base list gmap numbers.
From S2P Require Import Prelude Config Serial Platform Uplinks.
Open Scope Z_scope.

Module Downlinks.
Import Serial Uplinks.

(** [resetModule()]: wait 10 s and 16383 us, then restart the chip. *)
Definition resetModule : M Dev unit :=
  delay 10000;;
  delayMicroseconds 16383;;
  esp_restart.

(** [downlinksControlTime()] with [RX_DELAY] and [CLOCK_ERROR] defined. *)
Definition downlinksControlTime : M Dev unit :=
  set_rxDelay RX_DELAY;;
  LMIC_setClockError (Z.quot (MAX_CLOCK_ERROR * CLOCK_ERROR) 100).

(** [LMIC.frame[LMIC.dataBeg + k]]. *)
Definition at_beg (k : Z) : M Dev Z :=
  beg ← gets (fun d => dataBeg (lmic d));
  read_frame (beg + k).

(** [256 * LMIC.frame[LMIC.dataBeg + 2] + LMIC.frame[LMIC.dataBeg + 3]]:
    the bytes are promoted to [int] and the sum is computed in [int]. *)
Definition dat_int_expr (hi lo : Z) : Z := 256 * hi + lo.

(** [uint16_t dat = ...]: the [int] value converted to [uint16_t]. *)
Definition dat_of (hi lo : Z) : Z := u16 (dat_int_expr hi lo).

(** [TX_INTERVAL = v]. *)
Definition assign_TX_INTERVAL (v : Z) : M Dev unit :=
  modify (fun d => set_globals (set_TX_INTERVAL v (globals d)) d).

(** [" [INFO] ... : " + String(v, HEX)] and [+ String(v)]: [String] of
    an unsigned value writes lower-case hex or decimal digits. *)
Definition info_hex (label : string) (v : Z) : string := String.append label (string_hex v).
Definition info_dec (label : string) (v : Z) : string := String.append label (print_dec v).

#[global] Arguments info_hex : simpl never.
#[global] Arguments info_dec : simpl never.
#[global] Arguments dat_of : simpl never.

(** [downlinksRule()], with [DEBUG] defined. *)
Definition downlinksRule : M Dev unit :=
  len1 ← gets (fun d => dataLen (lmic d));
  when (len1 =? 1) (
    result ← at_beg 0;
    when (result =? 0) (
      serial_println " [INFO] RESULT 0";;
      digitalWrite LED LOW);;
    when (result =? 1) (
      serial_println " [INFO] RESULT 1";;
      digitalWrite LED HIGH);;
    when (result =? 101) (
      serial_println " [INFO] RESULT 101, Call a new Uplink. \('~')/";;
      payloadSend UPLINK_PORT payloadRelayUplink
        (Z.of_nat (length payloadRelayUplink)) UPLINK_CONFIRMED));;
  len5 ← gets (fun d => dataLen (lmic d));
  port ← at_beg (-1);
  if (len5 =? 5) && (port =? 255) then
    serial_println " [INFO] Downlink with Five bytes is available";;
    serial_println " [INFO] Downlink FPort            : 255";;
    header ← at_beg 0;
    cmd ← at_beg 1;
    hi ← at_beg 2;
    lo ← at_beg 3;
    let dat := dat_of hi lo in
    tail ← at_beg 4;
    serial_println (info_hex " [INFO] Header                    : " header);;
    serial_println (info_hex " [INFO] Command                   : " cmd);;
    serial_println (info_hex " [INFO] Data                      : " dat);;
    serial_println (info_hex " [INFO] Tail                      : " tail);;
    when ((header =? 0x55) && (tail =? 0xFF)) (
      when (cmd =? 0x01) (
        serial_println " [INFO] Received CHANGE_TX_INTERVAL request";;
        assign_TX_INTERVAL dat;;
        tx ← gets (fun d => TX_INTERVAL (globals d));
        serial_println (info_dec " [INFO] New CHANGE_TX_INTERVAL: " tx));;
      seq ← gets (fun d => seqNoUp (globals d));
      when ((cmd =? 0x02) && (2 <? seq)) (
        serial_println " [INFO] Received REBOOT request";;
        serial_println " [INFO] Resetting the Module in 10 seconds... ~('.')~";;
        resetModule))
  else
    fport ← at_beg (-1);
    serial_println (info_dec " [INFO] Downlink FPort      : " fport).

(** [downlinksRule()] built with [DEBUG] undefined (the header's
    "To cancel Debug" setting): every [#ifdef DEBUG] block is gone,
    among them the [else] branch's print of the port, which leaves that
    branch empty. *)
Definition downlinksRule_release : M Dev unit :=
  len1 ← gets (fun d => dataLen (lmic d));
  when (len1 =? 1) (
    result ← at_beg 0;
    when (result =? 0) (digitalWrite LED LOW);;
    when (result =? 1) (digitalWrite LED HIGH);;
    when (result =? 101)
      (payloadSend UPLINK_PORT payloadRelayUplink
         (Z.of_nat (length payloadRelayUplink)) UPLINK_CONFIRMED));;
  len5 ← gets (fun d => dataLen (lmic d));
  port ← at_beg (-1);
  if (len5 =? 5) && (port =? 255) then
    header ← at_beg 0;
    cmd ← at_beg 1;
    hi ← at_beg 2;
    lo ← at_beg 3;
    let dat := dat_of hi lo in
    tail ← at_beg 4;
    when ((header =? 0x55) && (tail =? 0xFF)) (
      when (cmd =? 0x01) (assign_TX_INTERVAL dat);;
      seq ← gets (fun d => seqNoUp (globals d));
      when ((cmd =? 0x02) && (2 <? seq)) resetModule)
  else
    mret tt.

(** ** Well-formed receive bookkeeping

    LMIC stores the port byte just before the payload, so [dataBeg >= 1]
    whenever a downlink is delivered; the payload lies inside the buffer,
    and the buffer holds bytes. *)
Definition rx_wf (l : Lmic) : bool :=
  (1 <=? dataBeg l) && (0 <=? dataLen l)
  && (dataBeg l + dataLen l <=? Z.of_nat (length (frame l)))
  && bytes_ok (frame l).

(** The byte [LMIC.frame[LMIC.dataBeg + k]] of a well-formed buffer. *)
Definition byte_at (l : Lmic) (k : Z) : Z :=
  default 0 (frame l !! Z.to_nat (dataBeg l + k)).

(** The part of LMIC's state the handler reads a frame from. *)
Definition rx_view (l : Lmic) : list Z * Z * Z := (frame l, dataBeg l, dataLen l).

(** ** Test fixtures: a device that has just received a downlink

    The buffer holds an 8-byte MAC header, the port, the payload and a
    4-byte MIC, as LMIC leaves it. *)
Definition lmic_rx (port : Z) (payload : list Z) (seqno : Z) : Lmic := {|
  frame := [0x60; 0x1c; 0xe7; 0xc4; 0x23; 0x20; 0x01; 0x00; port] ++ payload
           ++ [0x11; 0x22; 0x33; 0x44];
  dataBeg := 9; dataLen := Z.of_nat (length payload);
  seqnoUp := seqno; seqnoDn := 1; txrxFlags := 0; rssi := 0; snr := 0;
  datarate := 5; rxDelay := 1; clockError := 0; pendTx := None;
  freq := 916800000; netid := 0x13; devaddr := 0x23c4e71c; txChnl := 8; txpow := 14;
  rps := 0 |}.

Definition dev_rx (port : Z) (payload : list Z) (seq : Z) : Dev := {|
  globals := set_seqNoUp seq globals_init;
  lmic := lmic_rx port payload seq;
  pins := ∅;
  trace := [] |}.

(** A buffer holding only a payload, reported at [dataBeg = 0]. *)
Definition lmic_payload_at_0 (payload : list Z) : Lmic := {|
  frame := payload; dataBeg := 0; dataLen := Z.of_nat (length payload);
  seqnoUp := 1; seqnoDn := 1; txrxFlags := 0; rssi := 0; snr := 0; datarate := 5;
  rxDelay := 1; clockError := 0; pendTx := None; freq := 916800000; netid := 0x13;
  devaddr := 0x23c4e71c; txChnl := 8; txpow := 14; rps := 0 |}.

(** ** Reading the receive buffer *)

Lemma rx_wf_spec l :
  rx_wf l = true <->
  1 <= dataBeg l /\ 0 <= dataLen l /\ dataBeg l + dataLen l <= Z.of_nat (length (frame l))
  /\ bytes_ok (frame l) = true.
Proof. unfold rx_wf. rewrite !andb_true_iff, !Z.leb_le. tauto. Qed.

(** A read at a non-negative index below the end of the payload is
    inside the buffer. *)
Lemma read_in l k :
  0 <= dataBeg l + k -> k < dataLen l -> dataBeg l + dataLen l <= Z.of_nat (length (frame l)) ->
  (if decide (0 <= dataBeg l + k) then frame l !! Z.to_nat (dataBeg l + k) else None)
  = Some (byte_at l k).
Proof.
  intros Hk Hn Hlen. unfold byte_at. rewrite decide_True by lia.
  destruct (lookup_lt_is_Some_2 (frame l) (Z.to_nat (dataBeg l + k))) as [x Hx]; [lia|].
  by rewrite Hx.
Qed.

(** Under [rx_wf], the bytes from the port to the end of the payload are
    inside the buffer, and they are bytes. *)
Lemma read_ok l k :
  rx_wf l = true -> -1 <= k < Z.max 0 (dataLen l) ->
  (if decide (0 <= dataBeg l + k) then frame l !! Z.to_nat (dataBeg l + k) else None)
  = Some (byte_at l k).
Proof. intros (Hb & Hn & Hlen & _)%rx_wf_spec Hk. apply read_in; lia. Qed.

Lemma byte_at_range l k :
  rx_wf l = true -> -1 <= k < Z.max 0 (dataLen l) -> 0 <= byte_at l k < 256.
Proof.
  intros Hwf Hk. pose proof (read_ok l k Hwf Hk) as H.
  apply rx_wf_spec in Hwf as (Hb & _ & _ & Hok).
  rewrite decide_True in H by lia.
  eauto with lora.
Qed.

(** With two bytes, the conversion of [dat] to [uint16_t] keeps its value. *)
Lemma dat_of_small hi lo :
  0 <= hi < 256 -> 0 <= lo < 256 -> dat_of hi lo = 256 * hi + lo.
Proof. intros Hh Hl. unfold dat_of, dat_int_expr, u16. apply wrap_small. simpl. lia. Qed.

(** The same for the two data bytes of a delivered five-byte frame. *)
Lemma dat_of_byte_at l :
  rx_wf l = true -> dataLen l = 5 ->
  dat_of (byte_at l 2) (byte_at l 3) = 256 * byte_at l 2 + byte_at l 3.
Proof.
  intros Hwf H5. apply dat_of_small; apply byte_at_range; auto; lia.
Qed.

(** Rewrite every read of the run with [read_ok], given [rx_wf]. *)
Ltac rx_reads Hwf :=
  repeat match goal with
  | |- context [if decide (0 <= dataBeg ?l + ?k) then frame ?l !! Z.to_nat (dataBeg ?l + ?k) else None] =>
      rewrite (read_ok l k Hwf) by (cbn [lmic]; lia)
  end.

(** One step of a symbolic run: resolve the reads, then split on the
    first test of the code still in the goal; contradictory branches
    are closed by [lia]. *)
Ltac rule_step Hwf :=
  first
  [ progress (rx_reads Hwf; simpl)
  | match goal with
    | |- context [?a =? ?b] => destruct (Z.eqb_spec a b); try (exfalso; lia)
    | |- context [?a <? ?b] => destruct (Z.ltb_spec a b); try (exfalso; lia)
    | |- context [?a <=? ?b] => destruct (Z.leb_spec a b); try (exfalso; lia)
    end ].

(** Run the handler symbolically on a device with a well-formed buffer,
    down to one goal per path through the code. *)
Ltac run_rule Hwf :=
  unfold downlinksRule, downlinksRule_release, at_beg, read_frame, resetModule, assign_TX_INTERVAL,
    payloadSend, digitalWrite, LMIC_setTxData2, delay, delayMicroseconds, esp_restart,
    serial_println;
  mrun; repeat rule_step Hwf.

(** ** Theorems *)

(** C28: the port byte is read on every call.  The test
    [LMIC.dataLen == 5 & LMIC.frame[LMIC.dataBeg - 1] == 255] uses the
    non-short-circuit [&], so [LMIC.frame[LMIC.dataBeg - 1]] is read
    whatever the length (and read again by the DEBUG print of the
    [else] branch).  For a payload that lies inside the buffer, the
    handler reads outside [LMIC.frame] exactly when the payload starts
    at index 0, for every length, one-byte commands and an empty payload
    included: the condition [1 <= dataBeg] of [rx_wf] is necessary. *)
Theorem downlinksRule_faults_iff d :
  0 <= dataBeg (lmic d) -> 0 <= dataLen (lmic d) ->
  dataBeg (lmic d) + dataLen (lmic d) <= Z.of_nat (length (frame (lmic d))) ->
  bytes_ok (frame (lmic d)) = true ->
  (exists e d', downlinksRule d = Fault e d') <-> dataBeg (lmic d) = 0.
Proof.
  destruct d as [g l p t]; simpl. intros Hb Hn Hlen Hok.
  destruct (Z.eq_dec (dataBeg l) 0) as [E|E].
  - split; [intros _; exact E|]. intros _.
    unfold downlinksRule, at_beg, read_frame, digitalWrite, payloadSend, LMIC_setTxData2,
      serial_println.
    mrun.
    repeat first [ rewrite (read_in l 0) by lia
                 | rewrite (decide_False (P := 0 <= dataBeg l + -1)) by lia; simpl
                 | case_ztest; simpl ].
    all: eauto.
  - assert (Hwf : rx_wf l = true) by (apply rx_wf_spec; split_and!; lia || exact Hok).
    split; [|intros; lia]. intros (e & d' & H). revert H. run_rule Hwf; discriminate.
Qed.

Lemma downlinksRule_faults_iff_witness :
  let d := set_lmic (lmic_payload_at_0 [0x00]) (dev_rx 255 [0x00] 1) in
  (0 <= dataBeg (lmic d) /\ 0 <= dataLen (lmic d)
   /\ dataBeg (lmic d) + dataLen (lmic d) <= Z.of_nat (length (frame (lmic d)))
   /\ bytes_ok (frame (lmic d)) = true)
  /\ exists e d', downlinksRule d = Fault e d'.
Proof.
  intros d. split; [simpl; split_and!; (lia || reflexivity)|].
  apply (downlinksRule_faults_iff d); simpl; (lia || reflexivity).
Defined.

(** C2: the handler resets the chip exactly when the frame is the
    framed reboot command [55 02 .. .. FF] on port 255 and the uplink
    counter [seqNoUp] is above 2. *)
Theorem downlinksRule_halts_iff d :
  rx_wf (lmic d) = true ->
  (exists d', downlinksRule d = Halted d') <->
  dataLen (lmic d) = 5 /\ byte_at (lmic d) (-1) = 255 /\ byte_at (lmic d) 0 = 0x55
  /\ byte_at (lmic d) 4 = 0xFF /\ byte_at (lmic d) 1 = 0x02 /\ 2 < seqNoUp (globals d).
Proof.
  destruct d as [g l p t]; simpl. intros Hwf. run_rule Hwf;
    (split; [intros [? Hx]; first [discriminate | repeat split; lia]
            | intros; first [eexists; reflexivity | exfalso; lia]]).
Qed.

Lemma downlinksRule_halts_iff_witness :
  rx_wf (lmic (dev_rx 255 [0x55; 0x02; 0x00; 0x00; 0xFF] 2)) = true
  /\ ~ (exists d', downlinksRule (dev_rx 255 [0x55; 0x02; 0x00; 0x00; 0xFF] 2) = Halted d').
Proof.
  split; [reflexivity|].
  rewrite (downlinksRule_halts_iff (dev_rx 255 [0x55; 0x02; 0x00; 0x00; 0xFF] 2)) by reflexivity.
  simpl. lia.
Defined.

(** C7: a five-byte frame on a port other than 255 is ignored: the
    handler only prints the port and returns with the device otherwise
    unchanged, whatever the bytes, so a well-formed SetInterval frame
    [55 01 00 1E FF] or Reboot frame has no effect there. *)
Theorem downlinksRule_framed_other_port d :
  rx_wf (lmic d) = true -> dataLen (lmic d) = 5 -> byte_at (lmic d) (-1) <> 255 ->
  downlinksRule d
  = Done tt (log_event (EvSerial (println (info_dec " [INFO] Downlink FPort      : "
                                            (byte_at (lmic d) (-1))))) d).
Proof.
  destruct d as [g l p t]; simpl. intros Hwf H5 Hport.
  run_rule Hwf; reflexivity.
Qed.

Lemma downlinksRule_framed_other_port_witness :
  downlinksRule (dev_rx 1 [0x55; 0x01; 0x00; 0x1E; 0xFF] 2)
  = Done tt (log_event (EvSerial (println (info_dec " [INFO] Downlink FPort      : "
               (byte_at (lmic (dev_rx 1 [0x55; 0x01; 0x00; 0x1E; 0xFF] 2)) (-1)))))
             (dev_rx 1 [0x55; 0x01; 0x00; 0x1E; 0xFF] 2)).
Proof. apply downlinksRule_framed_other_port; [reflexivity | reflexivity | discriminate]. Defined.

(** C8: the reset path, in order.  When the handler resets the chip,
    it first prints the eight DEBUG lines of a Reboot frame (the frame
    fields in hex, the request, the ten-second warning), then calls
    [delay(10000)], [delayMicroseconds(16383)] and [esp_restart()], and
    nothing else; it changes no global and drives no pin. *)
Theorem downlinksRule_halt_trace d d' :
  rx_wf (lmic d) = true -> downlinksRule d = Halted d' ->
  trace d' = trace d ++ map (fun s => EvSerial (println s))
    [" [INFO] Downlink with Five bytes is available"; " [INFO] Downlink FPort            : 255";
     info_hex " [INFO] Header                    : " 0x55; info_hex " [INFO] Command                   : " 0x02;
     info_hex " [INFO] Data                      : " (256 * byte_at (lmic d) 2 + byte_at (lmic d) 3);
     info_hex " [INFO] Tail                      : " 0xFF;
     " [INFO] Received REBOOT request"; " [INFO] Resetting the Module in 10 seconds... ~('.')~"]%string
    ++ [EvDelay 10000; EvDelayMicroseconds 16383; EvRestart]
  /\ globals d' = globals d /\ pins d' = pins d.
Proof.
  destruct d as [g l p t]; simpl. intros Hwf. run_rule Hwf; intros Hrun; try discriminate.
  injection Hrun as <-. autorewrite with lora_rw.
  repeat match goal with H : byte_at l ?k = _ |- _ => rewrite H; clear H end.
  rewrite dat_of_byte_at by (auto; lia). simpl. by rewrite <- !app_assoc.
Qed.

Lemma downlinksRule_halt_trace_witness :
  rx_wf (lmic (dev_rx 255 [0x55; 0x02; 0x00; 0x00; 0xFF] 5)) = true
  /\ trace (final_state (downlinksRule (dev_rx 255 [0x55; 0x02; 0x00; 0x00; 0xFF] 5)))
     = trace (dev_rx 255 [0x55; 0x02; 0x00; 0x00; 0xFF] 5) ++ map (fun s => EvSerial (println s))
       [" [INFO] Downlink with Five bytes is available"; " [INFO] Downlink FPort            : 255";
        info_hex " [INFO] Header                    : " 0x55; info_hex " [INFO] Command                   : " 0x02;
        info_hex " [INFO] Data                      : " (256 * 0 + 0);
        info_hex " [INFO] Tail                      : " 0xFF;
        " [INFO] Received REBOOT request"; " [INFO] Resetting the Module in 10 seconds... ~('.')~"]%string
       ++ [EvDelay 10000; EvDelayMicroseconds 16383; EvRestart].
Proof.
  split; [reflexivity|].
  apply (downlinksRule_halt_trace (dev_rx 255 [0x55; 0x02; 0x00; 0x00; 0xFF] 5)
           (final_state (downlinksRule (dev_rx 255 [0x55; 0x02; 0x00; 0x00; 0xFF] 5))));
    reflexivity.
Defined.

(** C9: [DEBUG] only adds serial output.  On a well-formed buffer the
    handler built with [DEBUG] and the one built without it end the same
    way (return or reset) with the same globals, LMIC state, pins and
    library calls, in the same order; the release build prints nothing. *)
Theorem downlinksRule_debug_only_prints d :
  rx_wf (lmic d) = true ->
  outcome_equiv (downlinksRule d) (downlinksRule_release d)
  /\ serial_text (trace (final_state (downlinksRule_release d))) = serial_text (trace d).
Proof.
  destruct d as [g l p t]; simpl. intros Hwf.
  run_rule Hwf; cbn [outcome_equiv final_state]; unfold dev_equiv;
    simpl; autorewrite with lora_rw; simpl; rewrite ?app_nil_r, ?string_append_empty_r;
    repeat split.
Qed.

Lemma downlinksRule_debug_only_prints_witness :
  rx_wf (lmic (dev_rx 255 [0x55; 0x02; 0x00; 0x00; 0xFF] 5)) = true
  /\ outcome_equiv (downlinksRule (dev_rx 255 [0x55; 0x02; 0x00; 0x00; 0xFF] 5))
       (downlinksRule_release (dev_rx 255 [0x55; 0x02; 0x00; 0x00; 0xFF] 5))
  /\ serial_text (trace (final_state (downlinksRule_release (dev_rx 255 [0x55; 0x02; 0x00; 0x00; 0xFF] 5))))
     = serial_text (trace (dev_rx 255 [0x55; 0x02; 0x00; 0x00; 0xFF] 5)).
Proof. split; [reflexivity|]. apply downlinksRule_debug_only_prints. reflexivity. Defined.

(** C29: redelivery.  A network server may deliver a confirmed
    downlink twice.  Whenever the handler returns on a well-formed
    buffer, running it again on the same frame returns too, leaves the
    globals, LMIC and the pins as the first run left them, and makes the
    same library calls again: an LED write, a SetInterval or the relay
    uplink (LMIC keeps one pending uplink) is idempotent, and a Reboot
    the guard refused is refused again. *)
Theorem downlinksRule_redelivery_idempotent d d' :
  rx_wf (lmic d) = true -> downlinksRule d = Done tt d' ->
  exists d'', downlinksRule d' = Done tt d''
  /\ globals d'' = globals d' /\ lmic d'' = lmic d' /\ pins d'' = pins d'
  /\ calls (drop (length (trace d')) (trace d'')) = calls (drop (length (trace d)) (trace d')).
Proof.
  destruct d as [g l p t]; simpl. intros Hwf. run_rule Hwf; intros Hrun; try discriminate;
    injection Hrun as <-; run_rule Hwf; try (exfalso; lia); eexists; (split; [reflexivity|]);
    simpl; rewrite <- ?app_assoc; simpl; rewrite ?length_app, ?drop_app_add, ?drop_app_length;
    simpl; rewrite ?insert_insert_eq; split_and!; reflexivity.
Qed.

Lemma downlinksRule_redelivery_idempotent_witness :
  rx_wf (lmic (dev_rx 255 [0x55; 0x01; 0x00; 0x1E; 0xFF] 5)) = true
  /\ downlinksRule (dev_rx 255 [0x55; 0x01; 0x00; 0x1E; 0xFF] 5)
     = Done tt (final_state (downlinksRule (dev_rx 255 [0x55; 0x01; 0x00; 0x1E; 0xFF] 5)))
  /\ exists d'', downlinksRule (final_state (downlinksRule (dev_rx 255 [0x55; 0x01; 0x00; 0x1E; 0xFF] 5)))
                 = Done tt d''
     /\ globals d'' = globals (final_state (downlinksRule (dev_rx 255 [0x55; 0x01; 0x00; 0x1E; 0xFF] 5)))
     /\ lmic d'' = lmic (final_state (downlinksRule (dev_rx 255 [0x55; 0x01; 0x00; 0x1E; 0xFF] 5)))
     /\ pins d'' = pins (final_state (downlinksRule (dev_rx 255 [0x55; 0x01; 0x00; 0x1E; 0xFF] 5)))
     /\ calls (drop (length (trace (final_state (downlinksRule (dev_rx 255 [0x55; 0x01; 0x00; 0x1E; 0xFF] 5)))))
                 (trace d''))
        = calls (drop (length (trace (dev_rx 255 [0x55; 0x01; 0x00; 0x1E; 0xFF] 5)))
                   (trace (final_state (downlinksRule (dev_rx 255 [0x55; 0x01; 0x00; 0x1E; 0xFF] 5))))).
Proof.
  split; [reflexivity|]. split; [reflexivity|].
  apply (downlinksRule_redelivery_idempotent (dev_rx 255 [0x55; 0x01; 0x00; 0x1E; 0xFF] 5));
    reflexivity.
Defined.

(** C15: [downlinksControlTime] sets the first receive window delay to
    [RX_DELAY] = 1 s and tells LMIC to compensate a clock error of
    [CLOCK_ERROR] percent: 655/65536 is the largest fraction of
    [MAX_CLOCK_ERROR] not above 1 %. *)
Theorem downlinksControlTime_sets d :
  exists d', downlinksControlTime d = Done tt d'
  /\ rxDelay (lmic d') = RX_DELAY /\ clockError (lmic d') = 655
  /\ clockError (lmic d') * 100 <= MAX_CLOCK_ERROR * CLOCK_ERROR < (clockError (lmic d') + 1) * 100
  /\ trace d' = trace d ++ [EvSetClockError 655] /\ globals d' = globals d
  /\ frame (lmic d') = frame (lmic d).
Proof.
  eexists. split; [reflexivity|]. simpl.
  change (Z.quot (MAX_CLOCK_ERROR * CLOCK_ERROR) 100) with 655.
  repeat split; unfold MAX_CLOCK_ERROR, CLOCK_ERROR; lia.
Qed.

(** C12: invariant.  Whatever the frame, the handler leaves LMIC's
    receive buffer as it was and every global a value of its C type. *)
Theorem downlinksRule_preserves_wf d :
  rx_wf (lmic d) = true -> globals_wf (globals d) = true ->
  globals_wf (globals (final_state (downlinksRule d))) = true
  /\ rx_view (lmic (final_state (downlinksRule d))) = rx_view (lmic d).
Proof.
  destruct d as [[tx js mo sq] l p t]; simpl. intros Hwf Hg.
  run_rule Hwf; split; try reflexivity; try exact Hg.
  unfold globals_wf, dat_of, u16, UINT_BITS in *; simpl in *.
  rewrite !andb_true_iff, !fits_u_iff in *.
  pose proof (wrap_range 16 (dat_int_expr (byte_at l 2) (byte_at l 3)) ltac:(lia)).
  lia.
Qed.

Lemma downlinksRule_preserves_wf_witness :
  globals_wf (globals (final_state (downlinksRule (dev_rx 255 [0x55; 0x01; 0xFF; 0xFF; 0xFF] 5)))) = true
  /\ rx_view (lmic (final_state (downlinksRule (dev_rx 255 [0x55; 0x01; 0xFF; 0xFF; 0xFF] 5))))
     = rx_view (lmic (dev_rx 255 [0x55; 0x01; 0xFF; 0xFF; 0xFF] 5)).
Proof. apply downlinksRule_preserves_wf; reflexivity. Defined.


(** C13: the [int] expression of [dat] stays within [int] on the ESP32,
    and the conversion to [uint16_t] keeps its value: [dat] is the
    big-endian 16-bit number of the two data bytes. *)
Lemma dat_of_bytes hi lo :
  0 <= hi < 256 -> 0 <= lo < 256 ->
  fits_s INT_BITS (256 * hi) = true /\ fits_s INT_BITS (dat_int_expr hi lo) = true
  /\ dat_of hi lo = 256 * hi + lo.
Proof.
  intros Hh Hl. rewrite dat_of_small by lia. unfold dat_int_expr.
  rewrite !fits_s_iff; unfold INT_BITS; simpl; lia.
Qed.

Lemma dat_of_bytes_witness :
  fits_s INT_BITS (256 * 255) = true /\ fits_s INT_BITS (dat_int_expr 255 255) = true
  /\ dat_of 255 255 = 256 * 255 + 255.
Proof. apply dat_of_bytes; lia. Defined.


End Downlinks.
