(* ===== verification/Protocol.v ===== *)
(** * The downlink protocol: abstract contract and refinement

    The specification describes the handler as a pure decoder from a
    frame to a [Command] followed by a dispatcher that returns the new
    device state and one [Effect] (spec sections 4.1 to 4.3).  This file
    states that contract ([decode], [mayReboot], [dispatch], [encode])
    and proves that [Downlinks.downlinksRule] implements it: observed
    through the abstraction [abs] (the transmit interval and the LED
    level) and the library calls it makes, one run of the handler is one
    [dispatch] of the decoded command, for every frame on port 255 and
    every frame that is not five bytes long.  A five-byte frame on any
    other port is the one place where code and contract disagree
    (proved in [Downlinks]).  The file also shows
    that one frame has at most one effect, gives the exact DEBUG log of
    a SetInterval frame, and shows the error handling of section 7:
    every rejected frame leaves the device as it was and only prints. *)

From Stdlib Require Import ZArith String List Lia.
From stdpp Require Import base list gmap numbers.
From S2P Require Import Prelude Config Serial Platform Uplinks Downlinks.
Open Scope Z_scope.

Module Protocol.
Import Serial Uplinks Downlinks.

(** ** The contract *)

(** A delivered downlink: its port and its payload bytes. *)
Record Frame := { f_port : Z; f_bytes : list Z }.

Inductive Command :=
  | SetOutputLow
  | SetOutputHigh
  | TriggerRelayUplink
  | SetInterval (seconds : Z)
  | Reboot
  | Unknown.

#[export] Instance Command_eq_dec : EqDecision Command.
Proof. solve_decision. Qed.

(** Spec 4.1, rule 1: a one-byte frame. *)
Definition decode_single (v : Z) : Command :=
  if v =? 0 then SetOutputLow
  else if v =? 1 then SetOutputHigh
  else if v =? 101 then TriggerRelayUplink
  else Unknown.

(** Spec 4.1, rule 2: a five-byte frame [header cmd hi lo tail]. *)
Definition decode_framed (header cmd hi lo tail : Z) : Command :=
  if (header =? 0x55) && (tail =? 0xFF) then
    if cmd =? 0x01 then SetInterval (256 * hi + lo)
    else if cmd =? 0x02 then Reboot
    else Unknown
  else Unknown.

(** Spec 4.1: the decoder, rules in priority order (rule 3: anything
    else is [Unknown]). *)
Definition decode (f : Frame) : Command :=
  match f_bytes f with
  | [v] => decode_single v
  | [header; cmd; hi; lo; tail] => decode_framed header cmd hi lo tail
  | _ => Unknown
  end.

(** Spec 8: the wire encoding of the two framed commands. *)
Definition encode (c : Command) : list Z :=
  match c with
  | SetOutputLow => [0]
  | SetOutputHigh => [1]
  | TriggerRelayUplink => [101]
  | SetInterval n => [0x55; 0x01; n / 256; n mod 256; 0xFF]
  | Reboot => [0x55; 0x02; 0; 0; 0xFF]
  | Unknown => [0x55; 0x00; 0; 0; 0xFF]
  end.

(** Spec 3: the device state the dispatcher reads and writes. *)
Record DeviceState := { transmitIntervalSeconds : Z; outputEnabled : bool }.

Inductive Effect :=
  | NoEffect
  | SendUplink (payload : list Z)
  | ScheduleReboot.

#[export] Instance Effect_eq_dec : EqDecision Effect.
Proof. solve_decision. Qed.

(** Spec 4.2: the reboot guard. *)
Definition mayReboot (upCount : Z) : bool := 2 <? upCount.

(** Spec 4.3: the dispatcher. *)
Definition dispatch (c : Command) (st : DeviceState) (upCount : Z) : DeviceState * Effect :=
  match c with
  | SetOutputLow => ({| transmitIntervalSeconds := transmitIntervalSeconds st; outputEnabled := false |}, NoEffect)
  | SetOutputHigh => ({| transmitIntervalSeconds := transmitIntervalSeconds st; outputEnabled := true |}, NoEffect)
  | TriggerRelayUplink => (st, SendUplink payloadRelayUplink)
  | SetInterval n => ({| transmitIntervalSeconds := n; outputEnabled := outputEnabled st |}, NoEffect)
  | Reboot => (st, if mayReboot upCount then ScheduleReboot else NoEffect)
  | Unknown => (st, NoEffect)
  end.

(** Spec 7: the four ways a frame is rejected.  A five-byte frame whose
    header or tail is wrong fits none of the four as the specification
    words them ("wrong length for neither recognized shape" is
    [MalformedFrame]); section 6 says such a frame is rejected, and it
    is classed here with the malformed frames. *)
Inductive Rejection :=
  | MalformedFrame
  | UnknownSubcommand
  | UnrecognizedValue
  | RebootSuppressed.

Definition rejection (f : Frame) (upCount : Z) : option Rejection :=
  match decode f with
  | Unknown =>
      Some (match f_bytes f with
            | [_] => UnrecognizedValue
            | [header; _; _; _; tail] =>
                if (header =? 0x55) && (tail =? 0xFF) then UnknownSubcommand else MalformedFrame
            | _ => MalformedFrame
            end)
  | Reboot => if mayReboot upCount then None else Some RebootSuppressed
  | _ => None
  end.

(** ** Observing the code through the contract *)

(** The frame LMIC delivered: the port byte and the [dataLen] payload bytes. *)
Definition frame_of (l : Lmic) : Frame :=
  {| f_port := byte_at l (-1);
     f_bytes := map (fun i => byte_at l (Z.of_nat i)) (seq 0 (Z.to_nat (dataLen l))) |}.

(** The device state of the contract: [TX_INTERVAL] and whether the LED
    pin was last driven [HIGH]. *)
Definition abs (d : Dev) : DeviceState :=
  {| transmitIntervalSeconds := TX_INTERVAL (globals d);
     outputEnabled := bool_decide (pins d !! LED = Some HIGH) |}.

(** The effect a sequence of library calls has: a reset, or a queued
    uplink with its payload, or nothing. *)
Fixpoint effect_of (evs : list Event) : Effect :=
  match evs with
  | [] => NoEffect
  | EvRestart :: _ => ScheduleReboot
  | EvSetTxData2 r :: evs' =>
      match effect_of evs' with
      | ScheduleReboot => ScheduleReboot
      | _ => SendUplink (tx_data r)
      end
  | _ :: evs' => effect_of evs'
  end.

(** What one run of a routine from [d] shows: the abstract state reached
    and the effect of the calls it made; [None] if it faults. *)
Definition observe (d : Dev) (o : outcome Dev unit) : option (DeviceState * Effect) :=
  match o with
  | Done _ d' | Halted d' => Some (abs d', effect_of (drop (length (trace d)) (trace d')))
  | Fault _ _ => None
  end.

(** The library calls one run of the handler may make (spec section 3:
    one frame, at most one side effect): none, one LED write, the relay
    uplink, or the reset sequence. *)
Definition relay_req : TxReq :=
  {| tx_port := UPLINK_PORT; tx_data := payloadRelayUplink; tx_confirmed := UPLINK_CONFIRMED |}.

Definition handler_calls : list (list Event) :=
  [[]; [EvDigitalWrite LED LOW]; [EvDigitalWrite LED HIGH]; [EvSetTxData2 relay_req];
   [EvDelay 10000; EvDelayMicroseconds 16383; EvRestart]].

(** ** Refinement *)

(** The decoded frame, by the length LMIC reports. *)
Lemma decode_frame_of l :
  0 <= dataLen l ->
  decode (frame_of l) =
  if dataLen l =? 1 then decode_single (byte_at l 0)
  else if dataLen l =? 5 then
    decode_framed (byte_at l 0) (byte_at l 1) (byte_at l 2) (byte_at l 3) (byte_at l 4)
  else Unknown.
Proof.
  intros Hn. unfold decode, frame_of; simpl.
  destruct (Z.eqb_spec (dataLen l) 1) as [->|H1]; [done|].
  destruct (Z.eqb_spec (dataLen l) 5) as [->|H5]; [done|].
  destruct (Z.to_nat (dataLen l)) as [|[|[|[|[|[|n]]]]]] eqn:E; try done; lia.
Qed.

Lemma drop_length_app {A} (t e : list A) : drop (length t) (t ++ e) = e.
Proof. by rewrite drop_app_length. Qed.

Lemma abs_log_event e d : abs (log_event e d) = abs d.
Proof. reflexivity. Qed.

Lemma abs_set_pins q d :
  abs (set_pins q d) = {| transmitIntervalSeconds := TX_INTERVAL (globals d);
                          outputEnabled := bool_decide (q !! LED = Some HIGH) |}.
Proof. reflexivity. Qed.

Lemma abs_set_globals g d :
  abs (set_globals g d) = {| transmitIntervalSeconds := TX_INTERVAL g;
                             outputEnabled := bool_decide (pins d !! LED = Some HIGH) |}.
Proof. reflexivity. Qed.

#[export] Hint Rewrite @drop_length_app @drop_all abs_log_event abs_set_pins abs_set_globals : lora_rw.

(** Close a goal of the refinement once the run is unfolded. *)
Ltac close_refinement Hwf :=
  unfold dispatch, decode_single, decode_framed, mayReboot;
  repeat (case_ztest; try (exfalso; lia));
  autorewrite with lora_rw; cbv [abs set_TX_INTERVAL]; simpl;
  rewrite <- ?app_assoc; autorewrite with lora_rw;
  rewrite ?lookup_insert_eq, ?(dat_of_byte_at _ Hwf) by lia; try reflexivity.

(** The payload bytes LMIC reports determine [dataLen] and the bytes read. *)
Lemma frame_bytes_5 l b0 b1 b2 b3 b4 :
  0 <= dataLen l -> f_bytes (frame_of l) = [b0; b1; b2; b3; b4] ->
  dataLen l = 5 /\ byte_at l 0 = b0 /\ byte_at l 1 = b1 /\ byte_at l 2 = b2
  /\ byte_at l 3 = b3 /\ byte_at l 4 = b4.
Proof.
  intros Hn Hb. unfold frame_of in Hb; simpl in Hb.
  pose proof (f_equal length Hb) as Hlen. rewrite length_map, length_seq in Hlen.
  simpl in Hlen. assert (dataLen l = 5) as H5 by lia.
  rewrite H5 in Hb. simpl in Hb. injection Hb as <- <- <- <- <-. auto 7.
Qed.

(** A rejected frame decodes to [Unknown], or to a Reboot the guard refuses. *)
Lemma rejection_cases f up k :
  rejection f up = Some k ->
  decode f = Unknown \/ (decode f = Reboot /\ mayReboot up = false).
Proof. unfold rejection. destruct (decode f), (mayReboot up); naive_solver. Qed.

(** C1: refinement.  On a well-formed buffer, for every frame on port
    255 and every frame that is not five bytes long, one run of
    [downlinksRule] is observed as the contract's [dispatch] of the
    decoded command, with [seqNoUp] as the uplink count: same transmit
    interval, same LED state, and the same effect (nothing, the relay
    uplink, or a reset). *)
Theorem downlinksRule_refines d :
  rx_wf (lmic d) = true ->
  (dataLen (lmic d) = 5 -> byte_at (lmic d) (-1) = 255) ->
  observe d (downlinksRule d) =
  Some (dispatch (decode (frame_of (lmic d))) (abs d) (seqNoUp (globals d))).
Proof.
  destruct d as [g l p t]; simpl. intros Hwf Hport.
  pose proof (proj1 (rx_wf_spec l) Hwf) as Hs.
  rewrite decode_frame_of by lia.
  run_rule Hwf; close_refinement Hwf.
Qed.

Lemma downlinksRule_refines_witness :
  rx_wf (lmic (dev_rx 255 [0x55; 0x01; 0x00; 0x1E; 0xFF] 5)) = true
  /\ observe (dev_rx 255 [0x55; 0x01; 0x00; 0x1E; 0xFF] 5)
       (downlinksRule (dev_rx 255 [0x55; 0x01; 0x00; 0x1E; 0xFF] 5))
     = Some (dispatch (decode (frame_of (lmic (dev_rx 255 [0x55; 0x01; 0x00; 0x1E; 0xFF] 5))))
               (abs (dev_rx 255 [0x55; 0x01; 0x00; 0x1E; 0xFF] 5)) 5).
Proof.
  split; [reflexivity|].
  apply (downlinksRule_refines (dev_rx 255 [0x55; 0x01; 0x00; 0x1E; 0xFF] 5));
    [reflexivity | intros _; reflexivity].
Defined.

(** C5: round trip.  Delivering the encoding of [SetInterval n] on port
    255, for any 16-bit [n], makes the handler return with
    [TX_INTERVAL = n]: no other global, no pin and nothing of LMIC
    changes, and it makes no library call (it only prints). *)
Theorem setInterval_roundtrip d n :
  rx_wf (lmic d) = true -> 0 <= n < 65536 ->
  byte_at (lmic d) (-1) = 255 -> f_bytes (frame_of (lmic d)) = encode (SetInterval n) ->
  exists d', downlinksRule d = Done tt d' /\ globals d' = set_TX_INTERVAL n (globals d)
  /\ lmic d' = lmic d /\ pins d' = pins d /\ calls (trace d') = calls (trace d).
Proof.
  destruct d as [g l p t]; simpl. intros Hwf Hn Hport Hb.
  pose proof (proj1 (rx_wf_spec l) Hwf) as Hs.
  apply frame_bytes_5 in Hb as (H5 & E0 & E1 & E2 & E3 & E4); [|lia].
  run_rule Hwf; eexists; (split; [reflexivity|]); cbn [globals lmic pins trace log_event set_globals];
    autorewrite with lora_rw; simpl; rewrite ?app_nil_r; try lia.
  rewrite (dat_of_byte_at _ Hwf H5), E2, E3, <- Z.div_mod by lia. auto.
Qed.

Lemma setInterval_roundtrip_witness :
  exists d', downlinksRule (dev_rx 255 (encode (SetInterval 30)) 5) = Done tt d'
  /\ globals d' = set_TX_INTERVAL 30 (globals (dev_rx 255 (encode (SetInterval 30)) 5))
  /\ lmic d' = lmic (dev_rx 255 (encode (SetInterval 30)) 5)
  /\ pins d' = pins (dev_rx 255 (encode (SetInterval 30)) 5)
  /\ calls (trace d') = calls (trace (dev_rx 255 (encode (SetInterval 30)) 5)).
Proof.
  apply setInterval_roundtrip; [reflexivity | lia | reflexivity | reflexivity].
Defined.

(** C4: one frame, one effect.  On a well-formed buffer every run of
    the handler makes one of the five call sequences of [handler_calls]
    (serial prints aside): nothing, [digitalWrite(LED, LOW)],
    [digitalWrite(LED, HIGH)], the relay uplink, or [delay],
    [delayMicroseconds], [esp_restart]. *)
Theorem downlinksRule_one_effect d :
  rx_wf (lmic d) = true ->
  In (calls (drop (length (trace d)) (trace (final_state (downlinksRule d))))) handler_calls.
Proof.
  destruct d as [g l p t]; simpl. intros Hwf.
  run_rule Hwf; cbn [final_state trace log_event]; rewrite <- ?app_assoc;
    autorewrite with lora_rw; simpl; auto 6.
Qed.

Lemma downlinksRule_one_effect_witness :
  rx_wf (lmic (dev_rx 2 [101] 4)) = true
  /\ In (calls (drop (length (trace (dev_rx 2 [101] 4)))
                  (trace (final_state (downlinksRule (dev_rx 2 [101] 4)))))) handler_calls.
Proof. split; [reflexivity|]. apply downlinksRule_one_effect. reflexivity. Defined.

(** C6: the debug log of a SetInterval frame.  For the encoding of
    [SetInterval n] on port 255 the handler writes exactly these eight
    lines to the serial port, in this order, and nothing else to the
    trace: the frame fields in lower-case hex, then the request and the
    new interval [n] in decimal, read back from [TX_INTERVAL]. *)
Theorem setInterval_debug_log d n d' :
  rx_wf (lmic d) = true -> 0 <= n < 65536 ->
  byte_at (lmic d) (-1) = 255 -> f_bytes (frame_of (lmic d)) = encode (SetInterval n) ->
  downlinksRule d = Done tt d' ->
  trace d' = trace d ++ map (fun s => EvSerial (println s))
    [" [INFO] Downlink with Five bytes is available"; " [INFO] Downlink FPort            : 255";
     info_hex " [INFO] Header                    : " 0x55; info_hex " [INFO] Command                   : " 0x01;
     info_hex " [INFO] Data                      : " n; info_hex " [INFO] Tail                      : " 0xFF;
     " [INFO] Received CHANGE_TX_INTERVAL request"; info_dec " [INFO] New CHANGE_TX_INTERVAL: " n]%string.
Proof.
  destruct d as [g l p t]; simpl. intros Hwf Hn Hport Hb.
  pose proof (proj1 (rx_wf_spec l) Hwf) as Hs.
  apply frame_bytes_5 in Hb as (H5 & E0 & E1 & E2 & E3 & E4); [|lia].
  run_rule Hwf; intros Hrun; injection Hrun as <-; try lia.
  rewrite (dat_of_byte_at _ Hwf H5), E0, E1, E2, E3, E4, <- Z.div_mod by lia.
  simpl. by rewrite <- !app_assoc.
Qed.

Lemma setInterval_debug_log_witness :
  trace (final_state (downlinksRule (dev_rx 255 (encode (SetInterval 30)) 5)))
  = trace (dev_rx 255 (encode (SetInterval 30)) 5) ++ map (fun s => EvSerial (println s))
    [" [INFO] Downlink with Five bytes is available"; " [INFO] Downlink FPort            : 255";
     info_hex " [INFO] Header                    : " 0x55; info_hex " [INFO] Command                   : " 0x01;
     info_hex " [INFO] Data                      : " 30; info_hex " [INFO] Tail                      : " 0xFF;
     " [INFO] Received CHANGE_TX_INTERVAL request"; info_dec " [INFO] New CHANGE_TX_INTERVAL: " 30]%string.
Proof.
  apply (setInterval_debug_log (dev_rx 255 (encode (SetInterval 30)) 5) 30);
    [reflexivity | lia | reflexivity | reflexivity | reflexivity].
Defined.

(** C27: error handling (spec 7).  Every rejected frame (malformed,
    unknown sub-command, unrecognised one-byte value, or a Reboot the
    guard refuses), on any port, is non-fatal and has no effect: the
    handler returns with the globals, LMIC and the pins unchanged, makes
    no library call, and surfaces at least one diagnostic line on the
    serial port. *)
Theorem rejected_frame_diagnostic_only d k :
  rx_wf (lmic d) = true -> rejection (frame_of (lmic d)) (seqNoUp (globals d)) = Some k ->
  exists d' evs, downlinksRule d = Done tt d'
  /\ globals d' = globals d /\ lmic d' = lmic d /\ pins d' = pins d
  /\ trace d' = trace d ++ evs /\ evs <> [] /\ Forall (fun e => is_serial e = true) evs.
Proof.
  destruct d as [g l p t]; simpl. intros Hwf Hrej%rejection_cases.
  pose proof (proj1 (rx_wf_spec l) Hwf) as Hs.
  rewrite decode_frame_of in Hrej by lia. revert Hrej.
  unfold decode_single, decode_framed, mayReboot.
  run_rule Hwf; intros Hc;
    try (destruct Hc as [Hc | [Hc Hm]]; [discriminate Hc | first [discriminate Hc | discriminate Hm]]);
    eexists _, _; (split; [reflexivity|]); simpl; rewrite <- ?app_assoc;
    split_and!; try reflexivity; try discriminate; simpl; repeat constructor.
Qed.

Lemma rejected_frame_diagnostic_only_witness :
  rx_wf (lmic (dev_rx 255 [0x55; 0x02; 0x00; 0x00; 0xFF] 2)) = true
  /\ rejection (frame_of (lmic (dev_rx 255 [0x55; 0x02; 0x00; 0x00; 0xFF] 2))) 2 = Some RebootSuppressed
  /\ exists d' evs, downlinksRule (dev_rx 255 [0x55; 0x02; 0x00; 0x00; 0xFF] 2) = Done tt d'
     /\ globals d' = globals (dev_rx 255 [0x55; 0x02; 0x00; 0x00; 0xFF] 2)
     /\ lmic d' = lmic (dev_rx 255 [0x55; 0x02; 0x00; 0x00; 0xFF] 2)
     /\ pins d' = pins (dev_rx 255 [0x55; 0x02; 0x00; 0x00; 0xFF] 2)
     /\ trace d' = trace (dev_rx 255 [0x55; 0x02; 0x00; 0x00; 0xFF] 2) ++ evs
     /\ evs <> [] /\ Forall (fun e => is_serial e = true) evs.
Proof.
  split; [reflexivity|]. split; [reflexivity|].
  apply (rejected_frame_diagnostic_only _ RebootSuppressed); reflexivity.
Defined.

End Protocol.
