(* ===== verification/Session.v ===== *)
(** * Sessions across reboots: the reboot-loop guard

    The comment above the reboot test in [downlinksRule] explains the
    guard [seqNoUp > 2]: a network server may deliver a confirmed Reboot
    downlink a second time, right after the node came back, and the node
    must not reset again.  The sketch that owns the event loop is not
    among the sources; its part is modelled from the specification:
    each completed uplink cycle increments [seqNoUp], and after a reset
    the node runs again from [globals_init] with [seqNoUp] re-seeded to a
    value [r].  The specification (section 3) and the comment at
    [_downlinks.h] line 159 say [r = 2]; the initialiser in
    [_configurations.h] gives 0, and what the sketch stores is not under
    [src/].  The safety theorem holds for every [r <= 2]; for [r = 3]
    the node can reset forever.

    The handler is a parameter here, constrained by the class
    [GuardedHandler]: what the rest of the node relies on.  The
    invariant of [sys_step] is proved against the class, and
    [downlinksRule_guarded] discharges it for the code. *)

From Stdlib Require Import ZArith String List Lia.
From stdpp Require Import base list gmap numbers.
From S2P Require Import Prelude Config Platform Uplinks Downlinks.
Open Scope Z_scope.

Module Session.
Import Downlinks.

(** ** What a downlink handler promises the event loop *)
Class GuardedHandler (h : M Dev unit) : Prop := {
  gh_no_fault : forall d e d', rx_wf (lmic d) = true -> h d <> Fault e d';
  gh_halt_guard : forall d d', rx_wf (lmic d) = true -> h d = Halted d' ->
                  2 < seqNoUp (globals d);
  gh_keeps_seq : forall d d', rx_wf (lmic d) = true -> h d = Done tt d' ->
                 seqNoUp (globals d') = seqNoUp (globals d)
}.

(** ** The node across reboots *)

Record Sys := {
  dev : Dev;
  restarts : nat;   (** resets performed so far *)
  uplinks : nat     (** uplink cycles completed so far *)
}.

(** One uplink cycle of the sketch's event loop: [seqNoUp] counts it, as
    an [unsigned int]. *)
Definition do_send_cycle (d : Dev) : Dev :=
  set_globals (set_seqNoUp (u32 (seqNoUp (globals d) + 1)) (globals d)) d.

(** The node after [esp_restart()]: fresh globals with the counter
    re-seeded to [r], all pins released, LMIC's buffer as it was. *)
Definition reboot_reseed (r : Z) (d : Dev) : Dev :=
  {| globals := set_seqNoUp r globals_init; lmic := lmic d; pins := ∅; trace := trace d |}.

(** A downlink is delivered into LMIC's buffer. *)
Definition deliver (l : Lmic) (d : Dev) : Dev := set_lmic l d.

Inductive sys_step (h : M Dev unit) (r : Z) : Sys -> Sys -> Prop :=
  | step_uplink s :
      sys_step h r s {| dev := do_send_cycle (dev s); restarts := restarts s;
                      uplinks := S (uplinks s) |}
  | step_downlink s l d' :
      rx_wf l = true -> h (deliver l (dev s)) = Done tt d' ->
      sys_step h r s {| dev := d'; restarts := restarts s; uplinks := uplinks s |}
  | step_reset s l d' :
      rx_wf l = true -> h (deliver l (dev s)) = Halted d' ->
      sys_step h r s {| dev := reboot_reseed r d'; restarts := S (restarts s);
                      uplinks := uplinks s |}.

(** Power-on: the initial globals and an empty buffer. *)
Definition boot (l : Lmic) : Sys :=
  {| dev := {| globals := globals_init; lmic := l; pins := ∅; trace := [] |};
     restarts := 0; uplinks := 0 |}.

Inductive reachable (h : M Dev unit) (r : Z) : Sys -> Prop :=
  | reach_boot l : reachable h r (boot l)
  | reach_step s s' : reachable h r s -> sys_step h r s s' -> reachable h r s'.

(** The potential of the invariant: uplinks not yet spent on a reset. *)
Definition credit (s : Sys) : Z := Z.max 2 (seqNoUp (globals (dev s))) - 2.

(** Fixtures: an empty buffer at power-on, and the Reboot frame
    [55 02 00 00 FF] on port 255. *)
Definition boot_lmic : Lmic := lmic_rx 0 [] 0.
Definition reboot_lmic : Lmic := lmic_rx 255 [0x55; 0x02; 0x00; 0x00; 0xFF] 3.

(** Power-on followed by [n] uplink cycles. *)
Definition run_up (n : nat) : Sys :=
  Nat.iter n (fun s => {| dev := do_send_cycle (dev s); restarts := restarts s;
                          uplinks := S (uplinks s) |}) (boot boot_lmic).

(** Three uplink cycles, then the Reboot frame resets the node, which
    comes back with the counter re-seeded to [r]. *)
Definition reset_once (r : Z) : Sys :=
  {| dev := reboot_reseed r (final_state (downlinksRule (deliver reboot_lmic (dev (run_up 3)))));
     restarts := 1; uplinks := 3 |}.

(** ** The invariant, against the interface *)
Section Guarded.
Context (h : M Dev unit) `{!GuardedHandler h} (r : Z) (Hr0 : 0 <= r <= 2).

Lemma credit_uplink s :
  0 <= seqNoUp (globals (dev s)) ->
  0 <= seqNoUp (globals (do_send_cycle (dev s)))
  /\ credit {| dev := do_send_cycle (dev s); restarts := restarts s;
               uplinks := S (uplinks s) |} <= credit s + 1.
Proof.
  intros Hs. unfold credit, do_send_cycle, u32, wrap; simpl.
  pose proof (Z.mod_pos_bound (seqNoUp (globals (dev s)) + 1) (2 ^ 32) eq_refl) as Hb.
  destruct (Z.lt_ge_cases (seqNoUp (globals (dev s)) + 1) (2 ^ 32)).
  - rewrite Z.mod_small; lia.
  - lia.
Qed.

(** Every reset is paid for by an uplink cycle. *)
Lemma reachable_credit s :
  reachable h r s ->
  0 <= seqNoUp (globals (dev s)) /\ Z.of_nat (restarts s) + credit s <= Z.of_nat (uplinks s).
Proof.
  induction 1 as [l | s s' Hr [Hpos IH] Hstep].
  - unfold credit; simpl. lia.
  - destruct Hstep as [s | s l d' Hwf Hrun | s l d' Hwf Hrun]; simpl.
    + pose proof (credit_uplink s Hpos). unfold credit in *; simpl in *. lia.
    + apply gh_keeps_seq in Hrun; [|exact Hwf].
      unfold credit in *; simpl in *. rewrite Hrun. auto.
    + apply gh_halt_guard in Hrun; [|exact Hwf].
      unfold credit in *; simpl in *. lia.
Qed.
End Guarded.

(** ** The code satisfies the interface *)

#[export] Instance downlinksRule_guarded : GuardedHandler downlinksRule.
Proof.
  split; intros [g l p t] *; simpl; intros Hwf; run_rule Hwf;
    try discriminate; intros Hrun; injection Hrun as <-; reflexivity || lia.
Qed.

(** ** Runs of the node *)

Lemma run_up_reachable r n : reachable downlinksRule r (run_up n).
Proof.
  induction n as [|n IH]; [apply reach_boot|].
  eapply reach_step; [exact IH | apply step_uplink].
Qed.

Lemma reset_once_reachable r : reachable downlinksRule r (reset_once r).
Proof.
  eapply reach_step; [apply (run_up_reachable r 3)|].
  apply step_reset with (l := reboot_lmic); reflexivity.
Qed.

(** A node re-seeded to 3 resets again on the redelivered Reboot frame. *)
Lemma reseed3_reboots d :
  exists d', downlinksRule (deliver reboot_lmic (reboot_reseed 3 d)) = Halted d'.
Proof. eexists. cbv. reflexivity. Qed.

(** ** Theorems about the node running [downlinksRule] *)

(** C3: no reboot loop.  If the counter is re-seeded to at most 2 after
    a reset (2 in the specification, 0 by the header's initialiser), in
    every run of the node from power-on the number of resets never
    exceeds the number of completed uplink cycles, whatever downlinks
    the network delivers and however often it repeats them. *)
Theorem no_reboot_loop r s :
  0 <= r <= 2 -> reachable downlinksRule r s -> (restarts s <= uplinks s)%nat.
Proof.
  intros Hr Hreach. destruct (reachable_credit downlinksRule r Hr s Hreach) as [_ H].
  unfold credit in H. lia.
Qed.

Lemma no_reboot_loop_witness :
  (0 <= 2 <= 2 /\ reachable downlinksRule 2 (reset_once 2))
  /\ (restarts (reset_once 2) <= uplinks (reset_once 2))%nat.
Proof.
  assert (H : reachable downlinksRule 2 (reset_once 2)) by apply reset_once_reachable.
  split; [split; [lia | exact H]|]. apply (no_reboot_loop 2 (reset_once 2)); [lia | exact H].
Defined.

(** C10: the guard and the re-seed value must match.  Were the counter
    re-seeded to 3 after a reset, the network's redelivery of one Reboot
    frame would reset the node again and again: for every [k], a run
    with three uplink cycles and [k + 1] resets is reachable. *)
Theorem reseed_above_guard_loops k :
  exists s, reachable downlinksRule 3 s /\ uplinks s = 3%nat /\ restarts s = S k.
Proof.
  assert (exists s d, reachable downlinksRule 3 s /\ dev s = reboot_reseed 3 d
                      /\ uplinks s = 3%nat /\ restarts s = S k) as (s & _ & ? & _ & ? & ?)
    by (induction k as [|k (s & d & Hs & Hd & Hu & Hk)];
        [ exists (reset_once 3); eexists; split; [apply reset_once_reachable | auto]
        | destruct (reseed3_reboots d) as [d' Hrun]; rewrite <- Hd in Hrun;
          exists {| dev := reboot_reseed 3 d'; restarts := S (restarts s); uplinks := uplinks s |}, d';
          split; [eapply reach_step; [exact Hs | apply step_reset with (l := reboot_lmic); auto]
                 | simpl; auto] ]).
  eauto.
Qed.

End Session.
