(* ===== verification/Logs.v ===== *)
(** * Debug logs ([src/_logs.h])

    With [DEBUG] defined every routine of the header writes text to the
    serial port; each is modelled as the function computing that text
    from what it reads ([LMIC] fields, the globals, the session keys
    LMIC returns).  The Arduino core's formatting is in [Serial.v].
    The theorems show that [printHex2] and the key dumps can be parsed
    back to the bytes they print, and pin down the integer conversions
    of [showTxRxInformations] and the two frame dumps of
    [downlinksLog]. *)

From Stdlib Require Import ZArith String Ascii List Lia.
From stdpp Require Import base list numbers.
From S2P Require Import Prelude Config Platform Serial Downlinks.
Open Scope Z_scope.

Module Logs.
Import Serial.
Local Open Scope string_scope.
Local Infix "+++" := String.append (at level 60, right associativity).

(** [printHex2(v)]: [v &= 0xff], a leading '0' below 16, then the hex digits. *)
Definition printHex2 (v : Z) : string :=
  let v := Z.land v 0xff in
  (if (v <? 16)%Z then "0" else "") +++ print_hex v.

(** The separator the key loops print before byte [i]: [if (i != 0) print("-")]. *)
Definition key_sep (i : nat) : string := if (i =? 0)%nat then "" else "-".

(** [for (size_t i = ...; i < sizeof(key); ++i) { if (i != 0) print("-"); printHex2(key[i]); }]
    from index [i] on. *)
Fixpoint print_key_from (i : nat) (key : list Z) : string :=
  match key with
  | [] => ""
  | k :: ks => key_sep i +++ printHex2 k +++ print_key_from (S i) ks
  end.

Definition print_key (key : list Z) : string := print_key_from 0 key.

(** [showNetworkInformations()], given what [LMIC_getSessionKeys] stores
    into [netid], [devaddr], [nwkKey] and [artKey]. *)
Definition showNetworkInformations (netid devaddr : Z) (nwkKey artKey : list Z) : string :=
  println "_____________________________________________________________________________" +++ println "" ++
  println (" [INFO] NetID   (MSB)       : " +++ string_hex netid) ++
  println (" [INFO] DevAddr (MSB)       : " +++ string_hex devaddr) ++
  " [INFO] AppSKey (MSB)       : " +++ print_key artKey ++
  println "" ++
  " [INFO] NwkSKey (MSB)       : " +++ print_key nwkKey ++
  println "" +++ println "_____________________________________________________________________________" +++ println "".

(** ** [showTxRxInformations] *)

(** [int16_t rssi = (LMIC.rssi - 74)]: the [int] difference converted to
    [int16_t] (two's complement on the target). *)
Definition rssi_i16 (r : Z) : Z := (let z := wrap 16 (r - 74) in if z <? 2 ^ 15 then z else z - 2 ^ 16)%Z.

(** [u1_t snr = LMIC.snr * 0.25]: the product is exact in [double] and
    is converted to [u1_t] by truncation toward zero; when the truncated
    value is not in [0, 255] the conversion is undefined (C11 6.3.1.4),
    modelled as [None]. *)
Definition snr_u1 (s : Z) : option Z :=
  let q := Z.quot s 4 in if fits_u 8 q then Some q else None.

(** The [switch (LMIC.datarate)]. *)
Definition sf_line (dr : Z) : string :=
  if (dr =? 0)%Z then " [INFO] Spreading Factor    : 12"
  else if (dr =? 1)%Z then " [INFO] Spreading Factor    : 11"
  else if (dr =? 2)%Z then " [INFO] Spreading Factor    : 10"
  else if (dr =? 3)%Z then " [INFO] Spreading Factor    : 9"
  else if (dr =? 4)%Z then " [INFO] Spreading Factor    : 8"
  else if (dr =? 5)%Z then " [INFO] Spreading Factor    : 7"
  else " [INFO] Spreading Factor Unknown <<< ".

(** [LMIC.seqnoUp - 1] and [LMIC.seqnoDn - 1] on the [u4_t] counters. *)
Definition counter_shown (n : Z) : Z := u32 (n - 1).

(** [showTxRxInformations()].  [fmt_freq] is the text [String(freq)]
    gives for [float freq = LMIC.freq / 1000000.0] (Arduino's float
    formatting, not modelled).  [None]: the [snr] conversion is undefined. *)
Definition showTxRxInformations (fmt_freq : Z -> string) (d : Dev) : option string :=
  let l := lmic d in
  let rssi := rssi_i16 (rssi l) in
  match snr_u1 (snr l) with
  | None => None
  | Some snr =>
      Some (println "****************************************************" +++
            println (" [INFO] NetID               : x" +++ string_hex (netid l)) +++
            println (" [INFO] DevAddr             : " +++ string_hex (devaddr l)) +++
            println (" [INFO] TX on Channel       : " +++ print_dec (txChnl l)) +++
            println (" [INFO] TX Power            : " +++ string_dec (txpow l)) +++
            println (" [INFO] RSSI                : " +++ string_dec rssi) +++
            println (" [INFO] SNR                 : " +++ print_dec snr) +++
            println (" [INFO] RPS                 : " +++ print_dec (rps l)) +++
            println (" [INFO] Data rate           : " +++ print_dec (datarate l)) +++
            println (sf_line (datarate l)) +++
            println (" [INFO] " +++ modeOperation (globals d) +++ " on Frequency     : " +++ fmt_freq (freq l) +++ " MHz") +++
            println "____________________________________________________" +++
            println "" +++
            println (" [INFO] Counter UP          : " +++ print_dec (counter_shown (seqnoUp l))) +++
            println (" [INFO] Counter DOWN        : " +++ print_dec (counter_shown (seqnoDn l))) +++
            println "****************************************************")
  end.

(** ** [downlinksLog] *)

(** [if (LMIC.txrxFlags & flag) { println(rule); println(text); }] *)
Definition flag_lines (flags flag : Z) (rule text : string) : string :=
  if (Z.land flags flag =? 0)%Z then "" else println rule +++ println text.

(** The loop [for (u1_t i = 0; i < LMIC.dataLen; i++) body(i)] with its
    [u1_t] counter; [None] if a body reads outside the buffer or the
    fuel runs out. *)
Fixpoint dump_loop (body : Z -> option string) (fuel : nat) (i len : Z) : option string :=
  match fuel with
  | O => None
  | S f =>
      if (i <? len)%Z then
        match body i, dump_loop body f (u8 (i + 1)) len with
        | Some s, Some rest => Some (s +++ rest)
        | _, _ => None
        end
      else Some ""
  end.

(** A [u1_t] loop runs at most 256 times. *)
Definition LOOP_FUEL : nat := 257.

(** [print(b); print(" ");] *)
Definition dec_text (b : Z) : string := print_dec b +++ " ".

(** [if (b < 0x10) print("0"); print(b, HEX); print(" ");] *)
Definition hex_text (b : Z) : string := (if (b <? 0x10)%Z then "0" else "") +++ print_hex b +++ " ".

(** Body of the DECIMAL loop: [LMIC.frame[i]]. *)
Definition dec_item (l : Lmic) (i : Z) : option string :=
  match frame_at l i with
  | Some b => Some (dec_text b)
  | None => None
  end.

(** Body of the HEXADECIMAL loop: [LMIC.frame[LMIC.dataBeg + i]]. *)
Definition hex_item (l : Lmic) (i : Z) : option string :=
  match frame_at l (dataBeg l + i) with
  | Some b => Some (hex_text b)
  | None => None
  end.

(** [downlinksLog()]. *)
Definition downlinksLog (d : Dev) : option string :=
  let l := lmic d in
  let flags := txrxFlags l in
  let head :=
    println (" [INFO] RX Delay            : " +++ print_dec (rxDelay l)) +++
    println (" [INFO] Maximum Clock Error : " +++ string_dec MAX_CLOCK_ERROR) +++
    println (" [INFO] New Max. Clock Error: " +++ string_dec (Z.quot (MAX_CLOCK_ERROR * CLOCK_ERROR) 100)) +++
    flag_lines flags TXRX_ACK "____________________________________" " [INFO] Confirmed UP frame was acked" +++
    flag_lines flags TXRX_NACK "________________________________________" " [INFO] Confirmed UP frame was not acked" +++
    flag_lines flags TXRX_PORT "_______________________________________________________" " [INFO] A port field is contained in the received frame" +++
    flag_lines flags TXRX_DNW1 "___________________________________" " [INFO] Received in first DOWN slot" +++
    flag_lines flags TXRX_DNW2 "____________________________________" " [INFO] Received in second DOWN slot" +++
    flag_lines flags TXRX_PING "_______________________________________" " [INFO] Received in a scheduled RX slot" in
  if (dataLen l =? 0)%Z then Some head
  else
    match frame_at l (dataBeg l - 1),
          dump_loop (dec_item l) LOOP_FUEL 0 (dataLen l),
          dump_loop (hex_item l) LOOP_FUEL 0 (dataLen l) with
    | Some port, Some decs, Some hexs =>
        Some (head +++
              " [INFO] Received downlink with " +++ print_dec (dataLen l) +++ println " byte(s) of payload. \('~')/" +++
              " [INFO] Received at port          : " +++ print_dec port +++ println "." +++ println "" +++
              " [INFO] Full Frame in DECIMAL     : { " +++ decs +++ println "}" +++
              " [INFO] Payload in HEXADECIMAL    : { " +++ hexs +++ println "}" +++ println "")
    | _, _, _ => None
    end.

(** The text of a list of items, in order. *)
Definition concat_str (ss : list string) : string := fold_right String.append "" ss.

(** The payload of the last downlink: [dataLen] bytes from [dataBeg]. *)
Definition payload (l : Lmic) : list Z :=
  take (Z.to_nat (dataLen l)) (drop (Z.to_nat (dataBeg l)) (frame l)).

(** ** Parsing the dumps back *)

Definition hex_byte (a b : ascii) : option Z :=
  match hex_value a, hex_value b with
  | Some x, Some y => Some (16 * x + y)
  | _, _ => None
  end.

Definition parse_hex2 (s : string) : option Z :=
  match s with
  | String a (String b EmptyString) => hex_byte a b
  | _ => None
  end.

(** ["-XX-XX..."] *)
Fixpoint parse_key_tail (s : string) : option (list Z) :=
  match s with
  | EmptyString => Some []
  | String c (String a (String b rest)) =>
      if Ascii.eqb c "-"%char then
        match hex_byte a b, parse_key_tail rest with
        | Some x, Some xs => Some (x :: xs)
        | _, _ => None
        end
      else None
  | _ => None
  end.

(** ["XX-XX-...-XX"] *)
Definition parse_key (s : string) : option (list Z) :=
  match s with
  | EmptyString => Some []
  | String a (String b rest) =>
      match hex_byte a b, parse_key_tail rest with
      | Some x, Some xs => Some (x :: xs)
      | _, _ => None
      end
  | _ => None
  end.

(** ** Theorems *)

Local Close Scope string_scope.

Lemma land_ff v : Z.land v 0xff = v mod 256.
Proof. change 0xff with (Z.ones 8). rewrite Z.land_ones by lia. reflexivity. Qed.

(** [printHex2] always prints exactly two upper-case digits. *)
Lemma printHex2_digits v :
  printHex2 v = String (hex_char_upper (v mod 256 / 16))
                  (String (hex_char_upper (v mod 256 mod 16)) EmptyString).
Proof.
  unfold printHex2. rewrite land_ff.
  pose proof (Z.mod_pos_bound v 256 eq_refl) as Hb.
  destruct (Z.ltb_spec (v mod 256) 16).
  - rewrite print_hex_one by lia. rewrite Z.div_small, (Z.mod_small (v mod 256) 16) by lia.
    reflexivity.
  - rewrite print_hex_two by lia. reflexivity.
Qed.

Lemma hex_byte_digits b :
  0 <= b < 256 -> hex_byte (hex_char_upper (b / 16)) (hex_char_upper (b mod 16)) = Some b.
Proof.
  intros Hb. unfold hex_byte.
  rewrite !hex_value_upper; [f_equal; symmetry; apply Z.div_mod; lia | apply Z.mod_pos_bound; lia |].
  split; [apply Z.div_pos | apply Z.div_lt_upper_bound]; lia.
Qed.

(** C16: round trip.  The two characters [printHex2 v] prints parse back
    to the byte [v & 0xff], for every [v]. *)
Theorem printHex2_roundtrip v : parse_hex2 (printHex2 v) = Some (v mod 256).
Proof.
  rewrite printHex2_digits. apply hex_byte_digits, Z.mod_pos_bound. lia.
Qed.

Lemma parse_key_tail_from i key :
  Forall (fun b => 0 <= b < 256) key -> parse_key_tail (print_key_from (S i) key) = Some key.
Proof.
  revert i. induction key as [|k ks IH]; intros i Hk; [done|].
  inversion_clear Hk as [|? ? Hk1 Hks]. simpl.
  rewrite printHex2_digits, Z.mod_small by lia. simpl.
  rewrite hex_byte_digits by lia. change (append EmptyString ?x) with x. rewrite IH by done. reflexivity.
Qed.

(** C17: round trip.  The dash-separated dump the key loops of
    [showNetworkInformations] print parses back to the key bytes. *)
Theorem print_key_roundtrip key :
  bytes_ok key = true -> parse_key (print_key key) = Some key.
Proof.
  intros Hok%bytes_ok_Forall. destruct key as [|k ks]; [done|].
  inversion_clear Hok as [|? ? Hk Hks]. unfold print_key; simpl.
  rewrite printHex2_digits, Z.mod_small by lia. simpl.
  rewrite hex_byte_digits by lia. change (append EmptyString ?x) with x. rewrite parse_key_tail_from by done. reflexivity.
Qed.

Lemma print_key_roundtrip_witness :
  parse_key (print_key [0x6f; 0xc5; 0x7c; 0x4c; 0x0e]) = Some [0x6f; 0xc5; 0x7c; 0x4c; 0x0e].
Proof. apply print_key_roundtrip. reflexivity. Defined.

(** *** [showTxRxInformations] *)

(** C18: undefined behaviour.  For every SNR LMIC can report (an [s1_t]
    in quarter dB), the conversion [u1_t snr = LMIC.snr * 0.25] is
    undefined exactly when the SNR is -1 dB or below, so
    [showTxRxInformations] has defined behaviour only for [LMIC.snr >= -3]. *)
Theorem showTxRxInformations_snr_ub f d :
  -128 <= snr (lmic d) <= 127 ->
  showTxRxInformations f d = None <-> snr (lmic d) <= -4.
Proof.
  intros Hs. unfold showTxRxInformations, snr_u1.
  destruct (fits_u 8 (Z.quot (snr (lmic d)) 4)) eqn:Hf.
  - apply fits_u_iff in Hf. Z.quot_rem_to_equations.
    split; [discriminate | intros; simpl in *; lia].
  - assert (~ (0 <= Z.quot (snr (lmic d)) 4 < 2 ^ 8)) as Hn
      by (rewrite <- fits_u_iff; congruence).
    Z.quot_rem_to_equations. simpl in *. split; [intros _; lia | reflexivity].
Qed.

Lemma showTxRxInformations_snr_ub_witness :
  showTxRxInformations (fun _ => "916.80"%string) (set_lmic
     {| frame := []; dataBeg := 0; dataLen := 0; seqnoUp := 1; seqnoDn := 0; txrxFlags := 0;
        rssi := -40; snr := -30; datarate := 2; rxDelay := 1; clockError := 0; pendTx := None;
        freq := 916800000; netid := 0; devaddr := 0; txChnl := 8; txpow := 14; rps := 0 |}
     {| globals := globals_init; lmic := {| frame := []; dataBeg := 0; dataLen := 0; seqnoUp := 1;
        seqnoDn := 0; txrxFlags := 0; rssi := 0; snr := 0; datarate := 0; rxDelay := 1;
        clockError := 0; pendTx := None; freq := 0; netid := 0; devaddr := 0; txChnl := 0;
        txpow := 0; rps := 0 |}; pins := ∅; trace := [] |}) = None.
Proof. apply showTxRxInformations_snr_ub; simpl; lia. Defined.

(** C19: bounds.  For every [s1_t] RSSI LMIC reports, [LMIC.rssi - 74]
    fits [int16_t], so [rssi] holds the difference exactly. *)
Theorem rssi_i16_exact r :
  -128 <= r <= 127 -> rssi_i16 r = r - 74 /\ fits_s 16 (r - 74) = true.
Proof.
  intros Hr. rewrite fits_s_iff. unfold rssi_i16, wrap. split; [|simpl; lia].
  destruct (Z.ltb_spec ((r - 74) mod 2 ^ 16) (2 ^ 15)); Z.div_mod_to_equations; simpl in *; lia.
Qed.

Lemma rssi_i16_exact_witness : rssi_i16 (-128) = -202 /\ fits_s 16 (-128 - 74) = true.
Proof. apply rssi_i16_exact. lia. Defined.

(** C20: equivalence.  The six [case]s of the [switch (LMIC.datarate)]
    print [12 - datarate], the spreading factor of AU915 DR0..DR5; any
    other data rate prints the Unknown line. *)
Theorem sf_line_spec dr :
  sf_line dr = if (0 <=? dr) && (dr <=? 5) then " [INFO] Spreading Factor    : "%string +++ print_dec (12 - dr)
               else " [INFO] Spreading Factor Unknown <<< "%string.
Proof.
  destruct (Z.leb_spec 0 dr); destruct (Z.leb_spec dr 5); simpl;
    try (unfold sf_line; repeat (case_ztest; try lia); reflexivity).
  assert (dr = 0 \/ dr = 1 \/ dr = 2 \/ dr = 3 \/ dr = 4 \/ dr = 5) as Hd by lia.
  destruct Hd as [->|[->|[->|[->|[->| ->]]]]]; reflexivity.
Qed.

(** C21: bounds.  The counters are printed as [u4_t] differences: the
    value shown is [n - 1], except for a counter still at 0, which shows
    4294967295 (LMIC's [seqnoDn] before the first downlink). *)
Theorem counter_shown_wrap n :
  0 <= n < 2 ^ 32 -> counter_shown n = if n =? 0 then 2 ^ 32 - 1 else n - 1.
Proof.
  intros Hn. unfold counter_shown, u32, wrap.
  case_ztest; [subst; reflexivity|]. apply Z.mod_small. lia.
Qed.

Lemma counter_shown_wrap_witness : counter_shown 0 = 4294967295.
Proof. rewrite counter_shown_wrap; [reflexivity | lia]. Defined.

(** *** The [u1_t] dump loops of [downlinksLog] *)

Lemma dump_loop_range body items fuel i len :
  0 <= i <= len -> len < 256 -> (Z.to_nat (len - i) < fuel)%nat ->
  (forall k, i <= k < len -> body k = Some (items k)) ->
  dump_loop body fuel i len =
  Some (concat_str (map (fun k => items (Z.of_nat k)) (seq (Z.to_nat i) (Z.to_nat (len - i))))).
Proof.
  revert i. induction fuel as [|f IH]; intros i Hi Hlen Hf Hb; [lia|]. simpl.
  destruct (Z.ltb_spec i len).
  - rewrite Hb by lia. unfold u8. rewrite wrap_small by (simpl; lia).
    rewrite (IH (i + 1)) by (try lia; intros; apply Hb; lia).
    replace (Z.to_nat (len - i)) with (S (Z.to_nat (len - (i + 1)))) by lia.
    replace (Z.to_nat (i + 1)) with (S (Z.to_nat i)) by lia.
    simpl. rewrite Z2Nat.id by lia. reflexivity.
  - replace (Z.to_nat (len - i)) with 0%nat by lia. reflexivity.
Qed.

(** C22: termination.  A loop [for (u1_t i = 0; i < n; i++)] whose body
    always succeeds runs exactly [n] times for every [u1_t] bound [n]:
    the 8-bit counter never wraps before the test fails, and 257 rounds
    of fuel are never exhausted. *)
Theorem dump_loop_terminates body items n :
  0 <= n < 256 -> (forall k, 0 <= k < n -> body k = Some (items k)) ->
  dump_loop body LOOP_FUEL 0 n = Some (concat_str (map (fun k => items (Z.of_nat k)) (seq 0 (Z.to_nat n)))).
Proof.
  intros Hn Hb. rewrite (dump_loop_range body items); [| lia | lia | unfold LOOP_FUEL; lia | exact Hb].
  by rewrite Z.sub_0_r.
Qed.

Lemma dump_loop_terminates_witness :
  dump_loop (fun k => Some (dec_text k)) LOOP_FUEL 0 255
  = Some (concat_str (map (fun k => dec_text (Z.of_nat k)) (seq 0 (Z.to_nat 255)))).
Proof. apply (dump_loop_terminates _ dec_text); [lia | reflexivity]. Defined.

Lemma map_seq_lookup {B} (f : Z -> B) (l : list Z) n :
  (n <= length l)%nat -> map (fun k => f (default 0 (l !! k))) (seq 0 n) = map f (take n l).
Proof.
  revert n. induction l as [|x l IH]; intros [|n] Hn; simpl in *; try done; try lia.
  f_equal. rewrite <- seq_shift, map_map. apply IH. lia.
Qed.

(** The items of a loop over [b + k] are the [n] list elements from [b]. *)
Lemma map_seq_lookup_from {B} (f : Z -> B) (l : list Z) b n :
  0 <= b -> (Z.to_nat b + n <= length l)%nat ->
  map (fun k => f (default 0 (l !! Z.to_nat (b + Z.of_nat k)))) (seq 0 n)
  = map f (take n (drop (Z.to_nat b) l)).
Proof.
  intros Hb Hn. rewrite <- map_seq_lookup by (rewrite length_drop; lia).
  apply map_ext. intros k. rewrite lookup_drop. do 3 f_equal. lia.
Qed.

(** The DECIMAL dump of a buffer that holds the payload. *)
Lemma dec_dump l :
  0 <= dataBeg l -> 0 <= dataLen l < 256 ->
  dataBeg l + dataLen l <= Z.of_nat (length (frame l)) ->
  dump_loop (dec_item l) LOOP_FUEL 0 (dataLen l)
  = Some (concat_str (map dec_text (take (Z.to_nat (dataLen l)) (frame l)))).
Proof.
  intros Hb Hn Hlen.
  rewrite (dump_loop_range _ (fun k => dec_text (default 0 (frame l !! Z.to_nat (0 + k)))))
    by (first [lia | unfold LOOP_FUEL; lia | intros k Hk; unfold dec_item, frame_at;
        rewrite Z.add_0_l, decide_True by lia;
        destruct (lookup_lt_is_Some_2 (frame l) (Z.to_nat k)) as [x ->]; [lia | done]]).
  rewrite Z.sub_0_r, (map_seq_lookup_from dec_text) by lia. reflexivity.
Qed.

(** The HEXADECIMAL dump of a buffer that holds the payload. *)
Lemma hex_dump l :
  0 <= dataBeg l -> 0 <= dataLen l < 256 ->
  dataBeg l + dataLen l <= Z.of_nat (length (frame l)) ->
  dump_loop (hex_item l) LOOP_FUEL 0 (dataLen l) = Some (concat_str (map hex_text (payload l))).
Proof.
  intros Hb Hn Hlen.
  rewrite (dump_loop_range _ (fun k => hex_text (default 0 (frame l !! Z.to_nat (dataBeg l + k)))))
    by (first [lia | unfold LOOP_FUEL; lia | intros k Hk; unfold hex_item, frame_at;
        rewrite decide_True by lia;
        destruct (lookup_lt_is_Some_2 (frame l) (Z.to_nat (dataBeg l + k))) as [x ->]; [lia | done]]).
  rewrite Z.sub_0_r, (map_seq_lookup_from hex_text) by lia. reflexivity.
Qed.

(** [downlinksLog] is defined when the port byte is inside the buffer
    or there is no payload. *)
Lemma downlinksLog_text d :
  1 <= dataBeg (lmic d) \/ dataLen (lmic d) = 0 -> 0 <= dataBeg (lmic d) ->
  0 <= dataLen (lmic d) < 256 ->
  dataBeg (lmic d) + dataLen (lmic d) <= Z.of_nat (length (frame (lmic d))) ->
  exists s, downlinksLog d = Some s.
Proof.
  intros Hp Hb Hn Hlen. unfold downlinksLog.
  destruct (Z.eqb_spec (dataLen (lmic d)) 0); [eauto|].
  unfold frame_at at 1. rewrite decide_True by lia.
  destruct (lookup_lt_is_Some_2 (frame (lmic d)) (Z.to_nat (dataBeg (lmic d) - 1))) as [x ->]; [lia|].
  rewrite dec_dump, hex_dump by lia. eauto.
Qed.

(** C23: the two dumps of [downlinksLog].  On a buffer that holds the
    payload, the HEXADECIMAL loop prints the payload, but the loop
    labelled "Full Frame in DECIMAL" prints [LMIC.frame[0 .. dataLen-1]]:
    the first [dataLen] bytes of the MAC frame (header and address),
    neither the payload nor the full frame. *)
Theorem downlinksLog_dumps l :
  0 <= dataBeg l -> 0 <= dataLen l < 256 ->
  dataBeg l + dataLen l <= Z.of_nat (length (frame l)) ->
  dump_loop (dec_item l) LOOP_FUEL 0 (dataLen l)
  = Some (concat_str (map dec_text (take (Z.to_nat (dataLen l)) (frame l))))
  /\ dump_loop (hex_item l) LOOP_FUEL 0 (dataLen l) = Some (concat_str (map hex_text (payload l))).
Proof. intros Hb Hn Hlen. split; [apply dec_dump | apply hex_dump]; assumption. Qed.

Lemma downlinksLog_dumps_witness :
  let l := lmic (Downlinks.dev_rx 255 [0x55; 0x01; 0x00; 0x1E; 0xFF] 5) in
  dump_loop (dec_item l) LOOP_FUEL 0 (dataLen l)
  = Some (concat_str (map dec_text (take (Z.to_nat (dataLen l)) (frame l))))
  /\ dump_loop (hex_item l) LOOP_FUEL 0 (dataLen l) = Some (concat_str (map hex_text (payload l))).
Proof. intros l. apply downlinksLog_dumps; vm_compute; try discriminate; intuition discriminate. Defined.

(** C24: the error path of [downlinksLog].  When LMIC reports a
    payload inside the buffer, the log is defined except in one case: a
    payload at [dataBeg = 0], where the port read
    [LMIC.frame[LMIC.dataBeg - 1]] is [frame[-1]], undefined behaviour.
    A report with no payload reads nothing. *)
Theorem downlinksLog_undefined_iff d :
  0 <= dataBeg (lmic d) -> 0 <= dataLen (lmic d) < 256 ->
  dataBeg (lmic d) + dataLen (lmic d) <= Z.of_nat (length (frame (lmic d))) ->
  downlinksLog d = None <-> dataBeg (lmic d) = 0 /\ dataLen (lmic d) <> 0.
Proof.
  intros Hb Hn Hlen.
  destruct (decide (1 <= dataBeg (lmic d) \/ dataLen (lmic d) = 0)) as [Hp|Hp].
  - destruct (downlinksLog_text d Hp Hb Hn Hlen) as [t ->]. split; [discriminate | lia].
  - split; [intros _; lia|]. intros _. unfold downlinksLog.
    destruct (Z.eqb_spec (dataLen (lmic d)) 0); [lia|].
    unfold frame_at at 1. by rewrite decide_False by lia.
Qed.

Lemma downlinksLog_undefined_iff_witness :
  let d := set_lmic (Downlinks.lmic_payload_at_0 [0x01; 0x02]) (Downlinks.dev_rx 255 [0x01] 1) in
  (0 <= dataBeg (lmic d) /\ 0 <= dataLen (lmic d) < 256
   /\ dataBeg (lmic d) + dataLen (lmic d) <= Z.of_nat (length (frame (lmic d))))
  /\ downlinksLog d = None.
Proof.
  intros d. assert (H : 0 <= dataBeg (lmic d) /\ 0 <= dataLen (lmic d) < 256
    /\ dataBeg (lmic d) + dataLen (lmic d) <= Z.of_nat (length (frame (lmic d)))) by (simpl; lia).
  split; [exact H|]. destruct H as (H1 & H2 & H3).
  apply (downlinksLog_undefined_iff d H1 H2 H3). simpl. lia.
Defined.

End Logs.
