(* ===== verification/Credentials.v ===== *)
(** * Credentials ([src/_credentials.h])

    The header defines, for the activation mode and the network provider
    selected by the build ([USE_ABP] or [USE_OTAA]; one of four
    [USE_*_AU915*] providers), the session keys and address (ABP) or the
    EUIs and application key (OTAA), and the three callbacks LMIC calls
    to fetch the OTAA credentials.  The build selection is a record
    [Build]; [configured_build] is the one [_configurations.h] makes.
    The callbacks copy into LMIC's buffer: [memcpy_P(buf, X, n)] writes
    the first [n] bytes of [buf], and overflows (undefined behaviour,
    [None]) when the buffer is shorter. *)

From Stdlib Require Import ZArith List Lia.
From stdpp Require Import base list numbers.
From S2P Require Import Prelude.
Open Scope Z_scope.

Module Credentials.

Inductive Provider :=
  | CHIRPSTACK_AU915
  | CHIRPSTACK_AU915LA
  | EVERYNET_AU915LA
  | THETHINGSNETWORK_AU915.

#[export] Instance Provider_eq_dec : EqDecision Provider.
Proof. solve_decision. Qed.

Inductive Activation := USE_ABP | USE_OTAA.

Record Build := { activation : Activation; provider : Provider }.

(** [#define USE_OTAA] and [#define USE_CHIRPSTACK_AU915]. *)
Definition configured_build : Build := {| activation := USE_OTAA; provider := CHIRPSTACK_AU915 |}.

(** ** ABP: [APPSKEY], [NWKSKEY], [DEVADDR] *)
Definition APPSKEY (p : Provider) : list Z :=
  match p with
  | CHIRPSTACK_AU915 => [0x59; 0xBF; 0xC6; 0x89; 0x82; 0x4B; 0xDA; 0x7D; 0x0E; 0xF4; 0xA5; 0x1E; 0x56; 0xCF; 0xC2; 0xAF]
  | CHIRPSTACK_AU915LA => [0x59; 0xBF; 0xC6; 0x89; 0x82; 0x4B; 0xDA; 0x7D; 0x0E; 0xF4; 0xA5; 0x1E; 0x56; 0xCF; 0xC2; 0xAF]
  | EVERYNET_AU915LA => replicate 16 0x00
  | THETHINGSNETWORK_AU915 => [0xA5; 0x9B; 0x56; 0x5E; 0xD0; 0xC7; 0x08; 0xCC; 0x2B; 0xF2; 0x7D; 0x8B; 0x71; 0x40; 0xED; 0x90]
  end.

Definition NWKSKEY (p : Provider) : list Z :=
  match p with
  | CHIRPSTACK_AU915 => [0xA9; 0x55; 0x39; 0x0E; 0x48; 0x6A; 0x6F; 0xE4; 0xA2; 0x57; 0x5A; 0xE8; 0x7C; 0xCD; 0xF2; 0x99]
  | CHIRPSTACK_AU915LA => [0xA9; 0x55; 0x39; 0x0E; 0x48; 0x6A; 0x6F; 0xE4; 0xA2; 0x57; 0x5A; 0xE8; 0x7C; 0xCD; 0xF2; 0x99]
  | EVERYNET_AU915LA => replicate 16 0x00
  | THETHINGSNETWORK_AU915 => [0xF3; 0x58; 0xB7; 0x4F; 0x36; 0x03; 0x03; 0x6B; 0x46; 0x3E; 0xC4; 0x86; 0xDB; 0xB2; 0x29; 0x55]
  end.

Definition DEVADDR (p : Provider) : Z :=
  match p with
  | CHIRPSTACK_AU915 => 0x23c4e71c
  | CHIRPSTACK_AU915LA => 0x23c4e71c
  | EVERYNET_AU915LA => 0x00000000
  | THETHINGSNETWORK_AU915 => 0x26031738
  end.

(** ** OTAA: [APPEUI], [DEVEUI], [APPKEY] *)
Definition APPEUI (p : Provider) : list Z :=
  match p with
  | CHIRPSTACK_AU915 => replicate 8 0x00
  | CHIRPSTACK_AU915LA => replicate 8 0x00
  | EVERYNET_AU915LA => replicate 8 0x00
  | THETHINGSNETWORK_AU915 => [0x01; 0x17; 0x03; 0xD0; 0x7E; 0xD5; 0xB3; 0x70]
  end.

Definition DEVEUI (p : Provider) : list Z :=
  match p with
  | CHIRPSTACK_AU915 => [0xde; 0x63; 0x1e; 0xa3; 0xe5; 0xf5; 0x8d; 0xf3]
  | CHIRPSTACK_AU915LA => [0xde; 0x63; 0x1e; 0xa3; 0xe5; 0xf5; 0x8d; 0xf3]
  | EVERYNET_AU915LA => replicate 8 0x00
  | THETHINGSNETWORK_AU915 => [0xF0; 0xE4; 0xBD; 0x0F; 0xEF; 0x5B; 0x27; 0x00]
  end.

Definition APPKEY (p : Provider) : list Z :=
  match p with
  | CHIRPSTACK_AU915 => [0x6f; 0xc5; 0x7c; 0x4c; 0xda; 0x46; 0xdd; 0xc5; 0x02; 0xbc; 0xb7; 0x85; 0x5e; 0x4e; 0x94; 0xae]
  | CHIRPSTACK_AU915LA => [0x6f; 0xc5; 0x7c; 0x4c; 0xda; 0x46; 0xdd; 0xc5; 0x02; 0xbc; 0xb7; 0x85; 0x5e; 0x4e; 0x94; 0xae]
  | EVERYNET_AU915LA => replicate 16 0x00
  | THETHINGSNETWORK_AU915 => [0x70; 0xDC; 0xA9; 0x80; 0x78; 0x37; 0x4C; 0x51; 0x63; 0x3E; 0x4D; 0x73; 0x16; 0xA6; 0xB3; 0xB1]
  end.

(** [memcpy_P(buf, src, n)]. *)
Definition memcpy_P (buf src : list Z) (n : nat) : option (list Z) :=
  if decide (n <= length buf)%nat then Some (take n src ++ drop n buf) else None.

(** The callbacks under [USE_ABP]: [void os_getArtEui(u1_t *buf) {}]
    and the like, which leave LMIC's buffer as it is. *)
Definition os_getArtEui_abp (buf : list Z) : option (list Z) := Some buf.
Definition os_getDevEui_abp (buf : list Z) : option (list Z) := Some buf.
Definition os_getDevKey_abp (buf : list Z) : option (list Z) := Some buf.

(** The callbacks under [USE_OTAA]: a copy from program memory. *)
Definition os_getArtEui_otaa (p : Provider) (buf : list Z) : option (list Z) :=
  memcpy_P buf (APPEUI p) 8.
Definition os_getDevEui_otaa (p : Provider) (buf : list Z) : option (list Z) :=
  memcpy_P buf (DEVEUI p) 8.
Definition os_getDevKey_otaa (p : Provider) (buf : list Z) : option (list Z) :=
  memcpy_P buf (APPKEY p) 16.

(** The definition the build compiles: [#ifdef USE_ABP] or [#ifdef USE_OTAA]. *)
Definition os_getArtEui (b : Build) (buf : list Z) : option (list Z) :=
  match activation b with
  | USE_ABP => os_getArtEui_abp buf
  | USE_OTAA => os_getArtEui_otaa (provider b) buf
  end.

Definition os_getDevEui (b : Build) (buf : list Z) : option (list Z) :=
  match activation b with
  | USE_ABP => os_getDevEui_abp buf
  | USE_OTAA => os_getDevEui_otaa (provider b) buf
  end.

Definition os_getDevKey (b : Build) (buf : list Z) : option (list Z) :=
  match activation b with
  | USE_ABP => os_getDevKey_abp buf
  | USE_OTAA => os_getDevKey_otaa (provider b) buf
  end.

(** ** Theorems *)

Lemma credential_lengths p :
  length (APPSKEY p) = 16%nat /\ length (NWKSKEY p) = 16%nat /\ length (APPKEY p) = 16%nat
  /\ length (APPEUI p) = 8%nat /\ length (DEVEUI p) = 8%nat.
Proof. destruct p; repeat split. Qed.

(** C25: the LMIC callbacks.  Under OTAA, given LMIC's 8-byte EUI buffers
    and 16-byte key buffer, [os_getArtEui], [os_getDevEui] and
    [os_getDevKey] overwrite exactly their first 8 (resp. 16) bytes with
    the selected provider's [APPEUI], [DEVEUI] and [APPKEY]; under ABP
    they leave the buffers untouched. *)
Theorem os_get_callbacks b ebuf kbuf :
  (8 <= length ebuf)%nat -> (16 <= length kbuf)%nat ->
  os_getArtEui b ebuf = Some (if activation b is USE_OTAA then APPEUI (provider b) ++ drop 8 ebuf else ebuf)
  /\ os_getDevEui b ebuf = Some (if activation b is USE_OTAA then DEVEUI (provider b) ++ drop 8 ebuf else ebuf)
  /\ os_getDevKey b kbuf = Some (if activation b is USE_OTAA then APPKEY (provider b) ++ drop 16 kbuf else kbuf).
Proof.
  intros He Hk. destruct (credential_lengths (provider b)) as (_ & _ & Hak & Hae & Hde).
  unfold os_getArtEui, os_getDevEui, os_getDevKey, os_getArtEui_otaa, os_getDevEui_otaa,
    os_getDevKey_otaa, memcpy_P.
  destruct (activation b); [done|].
  rewrite !decide_True by lia. rewrite !take_ge by lia. done.
Qed.

Lemma os_get_callbacks_witness :
  os_getArtEui configured_build (replicate 8 0) = Some (APPEUI CHIRPSTACK_AU915)
  /\ os_getDevEui configured_build (replicate 8 0) = Some (DEVEUI CHIRPSTACK_AU915)
  /\ os_getDevKey configured_build (replicate 16 0) = Some (APPKEY CHIRPSTACK_AU915).
Proof.
  pose proof (os_get_callbacks configured_build (replicate 8 0) (replicate 16 0)) as H.
  rewrite !length_replicate in H. apply H; lia.
Defined.

End Credentials.
