(* ===== verification/Node.v ===== *)
(** * The downlink log read back against the decoder

    When a downlink arrives the node logs it with [downlinksLog]
    ([_logs.h]) and acts on it with [downlinksRule] ([_downlinks.h]);
    both read the same LMIC buffer.  This file reads the HEXADECIMAL dump
    of [downlinksLog] back ([parse_dump]) and shows that it is exactly
    the payload the contract's decoder ([Protocol.decode] of
    [Protocol.frame_of]) classifies: what the log shows is what the
    handler acts on. *)

From Stdlib Require Import ZArith String Ascii List Lia.
From stdpp Require Import base list numbers.
From S2P Require Import Prelude Config Serial Platform Uplinks Downlinks Protocol Logs.
Open Scope Z_scope.

Module Node.
Import Serial Downlinks Protocol Logs.

(** Reading the HEXADECIMAL dump back: groups of two upper-case hex
    digits and a space. *)
Fixpoint parse_dump (s : string) : option (list Z) :=
  match s with
  | EmptyString => Some []
  | String a (String b (String c rest)) =>
      if Ascii.eqb c " "%char then
        match hex_byte a b, parse_dump rest with
        | Some x, Some xs => Some (x :: xs)
        | _, _ => None
        end
      else None
  | _ => None
  end.

(** ** Lemmas *)

(** A byte prints in the HEXADECIMAL loop as its two digits and a space. *)
Lemma hex_text_digits b :
  0 <= b < 256 ->
  hex_text b = String (hex_char_upper (b / 16)) (String (hex_char_upper (b mod 16)) " ").
Proof.
  intros Hb. pose proof (printHex2_digits b) as H.
  unfold printHex2 in H. rewrite land_ff, Z.mod_small in H by lia.
  unfold hex_text. change (0x10) with 16. rewrite string_append_assoc, H. reflexivity.
Qed.

Lemma parse_dump_bytes bs :
  Forall (fun b => 0 <= b < 256) bs -> parse_dump (concat_str (map hex_text bs)) = Some bs.
Proof.
  induction bs as [|b bs IH]; intros Hbs; [reflexivity|].
  inversion_clear Hbs as [|? ? Hb Hbs']. simpl.
  rewrite hex_text_digits by exact Hb. simpl. change (append EmptyString ?x) with x.
  rewrite hex_byte_digits, IH by assumption. reflexivity.
Qed.

(** The bytes [downlinksLog] dumps are the bytes of the delivered frame. *)
Lemma payload_frame_of l :
  rx_wf l = true -> payload l = f_bytes (frame_of l).
Proof.
  intros (Hb & Hn & Hlen & _)%rx_wf_spec. unfold payload, frame_of, byte_at; simpl.
  rewrite <- (map_id (take _ _)), <- (map_seq_lookup_from id) by lia. reflexivity.
Qed.

(** ** Theorems *)

(** C11: the HEXADECIMAL dump reads back as the decoded frame.  On a
    well-formed buffer the loop of [downlinksLog] that prints the payload
    in hex always completes, and its text parses back to exactly the
    bytes [Protocol.decode] classifies: what the log shows is what the
    handler acts on. *)
Theorem hex_dump_reads_back l :
  rx_wf l = true -> dataLen l < 256 ->
  exists t, dump_loop (hex_item l) LOOP_FUEL 0 (dataLen l) = Some t
  /\ parse_dump t = Some (f_bytes (frame_of l)).
Proof.
  intros Hwf Hn. pose proof (proj1 (rx_wf_spec _) Hwf) as (Hb & Hn0 & Hlen & Hok).
  rewrite hex_dump by lia. eexists; split; [reflexivity|].
  rewrite <- payload_frame_of by exact Hwf. apply parse_dump_bytes.
  unfold payload. apply Forall_take, Forall_drop, bytes_ok_Forall, Hok.
Qed.

Lemma hex_dump_reads_back_witness :
  rx_wf (lmic_rx 255 [0x55; 0x01; 0x00; 0x1E; 0xFF] 5) = true
  /\ dataLen (lmic_rx 255 [0x55; 0x01; 0x00; 0x1E; 0xFF] 5) < 256
  /\ exists t, dump_loop (hex_item (lmic_rx 255 [0x55; 0x01; 0x00; 0x1E; 0xFF] 5)) LOOP_FUEL 0
                  (dataLen (lmic_rx 255 [0x55; 0x01; 0x00; 0x1E; 0xFF] 5)) = Some t
     /\ parse_dump t = Some (f_bytes (frame_of (lmic_rx 255 [0x55; 0x01; 0x00; 0x1E; 0xFF] 5))).
Proof.
  split; [reflexivity|]. split; [simpl; lia|].
  apply hex_dump_reads_back; [reflexivity | simpl; lia].
Defined.

End Node.
