(* ===== verification/Scheduler.v ===== *)
(** * The transmit scheduler and the downlink handler, interleaved

    Spec section 5: the device state ([TX_INTERVAL], the LED) and the
    session counter ([seqNoUp]) are shared by the downlink path, where
    LMIC calls [downlinksRule] once per delivered frame, and the
    sketch's periodic transmit scheduler, which reads [TX_INTERVAL] to
    time the next uplink.  Both run on one thread and each event is
    processed to completion before the next.  The sketch is not among
    the sources; its loop is modelled from the specification as
    [node_run], which consumes an explicit sequence of events: a timer
    tick waits [TX_INTERVAL] seconds and completes one uplink cycle
    ([Session.do_send_cycle]); a delivered frame runs the handler of
    the headers; a reset ([Halted]) brings the node back with fresh
    globals and the counter re-seeded ([Session.reboot_reseed]).

    [spec_run] is the specification's view of the same run: the
    [DeviceState] of section 3, changed only by [Protocol.dispatch] of
    the decoded command, and set back to its defaults by a reboot
    ("no state is saved", section 4.4).  The refinement theorem shows
    that for every interleaving of ticks and frames the intervals the
    scheduler waits are the ones the specification predicts, following
    the simulation diagram of a step lemma ([downlinksRule_sim]) and an
    induction on the sequence of events. *)

From Stdlib Require Import ZArith String List Lia.
From stdpp Require Import base list gmap numbers.
From S2P Require Import Prelude Config Platform Uplinks Downlinks Protocol Session.
Open Scope Z_scope.

Module Scheduler.
Import Downlinks Protocol Session.

(** What happens to the node next. *)
Inductive NodeEvent :=
  | Tick            (** the scheduler's timer fires: one uplink cycle *)
  | Rx (l : Lmic).  (** LMIC delivers a downlink into its buffer *)

(** The sketch's loop over a sequence of events, with the downlink
    handler [h]: the intervals the scheduler waits, in order; [None] if
    a routine faults. *)
Fixpoint node_run (h : M Dev unit) (r : Z) (evs : list NodeEvent) (d : Dev) : option (list Z) :=
  match evs with
  | [] => Some []
  | Tick :: evs' =>
      match node_run h r evs' (do_send_cycle d) with
      | Some ws => Some (TX_INTERVAL (globals d) :: ws)
      | None => None
      end
  | Rx l :: evs' =>
      match h (deliver l d) with
      | Done _ d' => node_run h r evs' d'
      | Halted d' => node_run h r evs' (reboot_reseed r d')
      | Fault _ _ => None
      end
  end.

(** The same events as the specification sees them. *)
Inductive SpecEvent :=
  | STick
  | SRx (f : Frame).

Definition spec_event (ev : NodeEvent) : SpecEvent :=
  match ev with Tick => STick | Rx l => SRx (frame_of l) end.

(** Spec 3: the device state at start-up (interval 15 s, output off). *)
Definition default_state : DeviceState :=
  {| transmitIntervalSeconds := 15; outputEnabled := false |}.

(** The specification's run: each frame is dispatched; a reboot restarts
    from the defaults with the counter at [r]; each tick waits the
    current interval and counts one uplink. *)
Fixpoint spec_run (r : Z) (evs : list SpecEvent) (st : DeviceState) (up : Z) : list Z :=
  match evs with
  | [] => []
  | STick :: evs' => transmitIntervalSeconds st :: spec_run r evs' st (u32 (up + 1))
  | SRx f :: evs' =>
      let (st', e) := dispatch (decode f) st up in
      match e with
      | ScheduleReboot => spec_run r evs' default_state r
      | _ => spec_run r evs' st' up
      end
  end.

(** The events the refinement covers: LMIC's bookkeeping is well formed,
    and a five-byte frame arrives on port 255 (where code and contract
    agree, see [Downlinks.downlinksRule_framed_other_port]). *)
Definition rx_ok (ev : NodeEvent) : bool :=
  match ev with
  | Tick => true
  | Rx l => rx_wf l && (negb (dataLen l =? 5) || (byte_at l (-1) =? 255))
  end.

(** Fixtures: the SetInterval frame [55 01 00 1E FF] on port 255. *)
Definition set30_lmic : Lmic := lmic_rx 255 [0x55; 0x01; 0x00; 0x1E; 0xFF] 1.

(** ** Lemmas *)

(** One run of the handler is one step of the specification: the
    abstract state it reaches, whether it resets, and the counter. *)
Lemma downlinksRule_sim d :
  rx_wf (lmic d) = true -> (dataLen (lmic d) = 5 -> byte_at (lmic d) (-1) = 255) ->
  match downlinksRule d, dispatch (decode (frame_of (lmic d))) (abs d) (seqNoUp (globals d)) with
  | Done _ d', (st', e) => abs d' = st' /\ e <> ScheduleReboot /\ seqNoUp (globals d') = seqNoUp (globals d)
  | Halted _, (_, e) => e = ScheduleReboot
  | _, _ => False
  end.
Proof.
  destruct d as [g l p t]; simpl. intros Hwf Hport.
  pose proof (proj1 (rx_wf_spec l) Hwf) as Hs.
  rewrite decode_frame_of by lia.
  run_rule Hwf; close_refinement Hwf; split_and!; try reflexivity; discriminate.
Qed.

Lemma abs_reboot_reseed r d : abs (reboot_reseed r d) = default_state.
Proof. reflexivity. Qed.

Lemma rx_ok_spec l :
  rx_ok (Rx l) = true <->
  rx_wf l = true /\ (dataLen l = 5 -> byte_at l (-1) = 255).
Proof.
  unfold rx_ok. rewrite andb_true_iff, orb_true_iff, negb_true_iff, Z.eqb_neq, Z.eqb_eq.
  split; intros [Hw Hp]; split; auto.
  - intros H5. destruct Hp; [contradiction | assumption].
  - destruct (Z.eq_dec (dataLen l) 5); auto.
Qed.

(** ** Theorems *)

(** C26: refinement over interleavings.  For every sequence of timer
    ticks and delivered frames (well formed, five-byte frames on port
    255), the node never faults, and the intervals its scheduler waits
    are those of the specification's run: the last SetInterval since the
    last reset, or the default 15 s after power-on and after every
    reset; the LED state and the reboot guard follow [dispatch] in
    between. *)
Theorem node_run_refines r evs d :
  forallb rx_ok evs = true ->
  node_run downlinksRule r evs d
  = Some (spec_run r (map spec_event evs) (abs d) (seqNoUp (globals d))).
Proof.
  revert d. induction evs as [|[|l] evs IH]; intros d Hok; [reflexivity| |].
  - simpl in Hok |- *. by rewrite IH.
  - simpl in Hok. apply andb_true_iff in Hok as [Hl Hok]. apply rx_ok_spec in Hl as [Hwf Hport].
    pose proof (downlinksRule_sim (deliver l d) Hwf Hport) as Hsim.
    change (abs (deliver l d)) with (abs d) in Hsim.
    change (lmic (deliver l d)) with l in Hsim. change (globals (deliver l d)) with (globals d) in Hsim.
    cbn [node_run map spec_event spec_run].
    destruct (downlinksRule (deliver l d)) as [[] d'|d'|e d'];
      destruct (dispatch (decode (frame_of l)) (abs d) (seqNoUp (globals d))) as [st' []];
      cbn iota in Hsim; destruct_and?; subst; try done;
      rewrite IH, ?abs_reboot_reseed by exact Hok; first [congruence | reflexivity].
Qed.

Lemma node_run_refines_witness :
  forallb rx_ok [Rx set30_lmic; Tick; Tick; Tick; Rx reboot_lmic; Tick] = true
  /\ node_run downlinksRule 2 [Rx set30_lmic; Tick; Tick; Tick; Rx reboot_lmic; Tick] (dev (boot boot_lmic))
     = Some (spec_run 2 (map spec_event [Rx set30_lmic; Tick; Tick; Tick; Rx reboot_lmic; Tick])
               (abs (dev (boot boot_lmic))) (seqNoUp (globals (dev (boot boot_lmic)))))
  /\ spec_run 2 (map spec_event [Rx set30_lmic; Tick; Tick; Tick; Rx reboot_lmic; Tick])
       (abs (dev (boot boot_lmic))) (seqNoUp (globals (dev (boot boot_lmic)))) = [30; 30; 30; 15].
Proof.
  split; [reflexivity|]. split; [|vm_compute; reflexivity].
  apply node_run_refines. reflexivity.
Defined.

End Scheduler.
